(** * Twitter Jobs Dashboard (src/app.py): ingestion and normalisation pipeline

    A shallow embedding of [generate_sample_data], [scrape_tweets],
    [apply_region_filter], the query builder, the CSV export and the
    "jobs per location" aggregation of the Streamlit script, followed by the
    properties established about them.

    Conventions.
    - A Python [str] is a Rocq [string]; a character is read as the code point
      of the same number (0..255), so comparison of strings is comparison by
      code point, as in Python.
    - A Python [int] is a [Z].
    - A cell of a table is [None] or a [str] ([pyval]).
    - A [pd.DataFrame] is its column labels together with its rows.
    - Exceptions are explicit: fallible code returns an [outcome]. *)

From Stdlib Require Import ZArith String Ascii List Bool Lia.
From Stdlib Require Import DecimalString DecimalZ DecimalPos.
From Stdlib Require Import OrdersEx Sorted Permutation Finite.
From stdpp Require Import base gmap.
Import ListNotations.

Local Open Scope string_scope.
Local Open Scope list_scope.

(** ** Python string primitives *)

Module Py.

(** [c.isspace()] for a code point below 256. *)
Definition isspace (c : ascii) : bool :=
  let n := nat_of_ascii c in
  ((9 <=? n)%nat && (n <=? 13)%nat)
  || ((28 <=? n)%nat && (n <=? 32)%nat)
  || (n =? 133)%nat || (n =? 160)%nat.

Fixpoint lstrip (s : string) : string :=
  match s with
  | EmptyString => EmptyString
  | String c r => if isspace c then lstrip r else s
  end.

Fixpoint rstrip (s : string) : string :=
  match s with
  | EmptyString => EmptyString
  | String c r =>
      match rstrip r with
      | EmptyString => if isspace c then EmptyString else String c EmptyString
      | r' => String c r'
      end
  end.

(** [s.strip()] *)
Definition strip (s : string) : string := rstrip (lstrip s).

(** [c.lower()] for a code point below 256: A-Z and the Latin-1 capitals
    (192..222 except the multiplication sign 215) move up by 32. *)
Definition lower_char (c : ascii) : ascii :=
  let n := nat_of_ascii c in
  if ((65 <=? n)%nat && (n <=? 90)%nat)
     || ((192 <=? n)%nat && (n <=? 222)%nat && negb (n =? 215)%nat)
  then ascii_of_nat (n + 32) else c.

(** [s.lower()] *)
Fixpoint lower (s : string) : string :=
  match s with
  | EmptyString => EmptyString
  | String c r => String (lower_char c) (lower r)
  end.

(** [s.split(sep)] for a one-character separator: never the empty list. *)
Fixpoint split (sep : ascii) (s : string) : list string :=
  match s with
  | EmptyString => [EmptyString]
  | String c r =>
      if Ascii.eqb c sep then EmptyString :: split sep r
      else match split sep r with
           | h :: t => String c h :: t
           | [] => [String c EmptyString]
           end
  end.

(** [sub in s] *)
Fixpoint contains (sub s : string) : bool :=
  String.prefix sub s
  || match s with
     | EmptyString => false
     | String _ r => contains sub r
     end.

(** [str(z)] for an [int]. *)
Definition str_of_int (z : Z) : string := NilZero.string_of_int (Z.to_int z).

(** [s1 < s2] on [str]: lexicographic on code points. *)
Definition str_lt (s1 s2 : string) : Prop := String_as_OT.lt s1 s2.

End Py.

(** ** Data model *)

(** A cell value: [None] or a [str]. *)
Inductive pyval : Type :=
| PNone
| PStr (s : string).

(** Truth value of a cell, as tested by [or] and [if]. *)
Definition truthy (v : pyval) : bool :=
  match v with
  | PNone => false
  | PStr s => negb (String.eqb s "")
  end.

(** [a or b] *)
Definition py_or (a b : pyval) : pyval := if truthy a then a else b.

(** [f"{v}"] *)
Definition format (v : pyval) : string :=
  match v with
  | PNone => "None"
  | PStr s => s
  end.

(** One row dict, as appended to [rows] in both producers. *)
Record Row : Type := mkRow {
  display_name : pyval;
  handle : pyval;
  text : pyval;
  url : pyval;
  location : pyval
}.

(** The keys of a row dict, in insertion order. *)
Definition record_columns : list string :=
  ["display_name"; "handle"; "text"; "url"; "location"].

(** [row[col]] *)
Definition cell (col : string) (r : Row) : pyval :=
  if String.eqb col "display_name" then display_name r
  else if String.eqb col "handle" then handle r
  else if String.eqb col "text" then text r
  else if String.eqb col "url" then url r
  else if String.eqb col "location" then location r
  else PNone.

Record DataFrame : Type := mkDF {
  columns : list string;
  rows : list Row
}.

(** [pd.DataFrame(rows)] for a list of row dicts: the columns are the keys of
    the dicts; an empty list gives a frame with no rows and no columns. *)
Definition pd_DataFrame (rs : list Row) : DataFrame :=
  match rs with
  | [] => mkDF [] []
  | _ :: _ => mkDF record_columns rs
  end.

(** [df.empty]: some axis has length 0. *)
Definition df_empty (df : DataFrame) : bool :=
  match columns df, rows df with
  | _ :: _, _ :: _ => false
  | _, _ => true
  end.

(** [len(df)] *)
Definition df_len (df : DataFrame) : nat := List.length (rows df).

(** ** Sample generator *)

(** The catalog [names] of [generate_sample_data]:
    (display name, handle, text, location). *)
Definition names : list (string * string * string * string) :=
  [ ("Aditi Sharma", "aditidesigns", "Hiring UI/UX designer for a fintech MVP. DM your portfolio!", "Bengaluru, India");
    ("Ravi Patel", "brandkraft_ravi", "Looking for a freelance brand identity designer for a quick turnaround", "Ahmedabad, IN");
    ("UX Careers", "ux_careers_daily", "We are hiring UI/UX Designer (Remote, India). Figma, prototyping, user testing.", "Remote");
    ("TechNest", "technest_jobs", "Product team needs a UI Designer. Mobile-first. 3-month contract.", "Pune");
    ("CreativeHub", "creativehub", "Brand identity designer needed for D2C skincare brand.", "Mumbai");
    ("Sarah Lee", "sarahdesigns", "Hiring UI/UX (Mid-level). SaaS. Apply with case studies.", "San Francisco, CA");
    ("Ankit Gupta", "ankit_hires", "UI/UX freelancer for a marketplace redesign. Weekly sprints.", "Gurugram");
    ("StartUpWave", "startup_wave", "Brand identity + UI kit for a stealth AI startup. Paid, remote.", "Remote") ].

Definition template : Type := (string * string * string * string)%type.

(** [names[i % len(names)]] *)
Definition names_at (i : Z) : template :=
  nth (Z.to_nat (i mod Z.of_nat (List.length names))) names ("", "", "", "").

(** The dict appended at index [i]. *)
Definition sample_row (i : Z) : Row :=
  let '(name, hdl, txt, loc) := names_at i in
  {| display_name := PStr name;
     handle := PStr ("@" ++ hdl);
     text := PStr (txt ++ " #" ++ Py.str_of_int (1000 + i));
     url := PStr ("https://twitter.com/" ++ hdl ++ "/status/"
                  ++ Py.str_of_int (1700000000000000000 + i));
     location := PStr loc |}.

(** [for i in range(n): rows.append(...)], with [todo] iterations left. *)
Fixpoint sample_loop (todo : nat) (i : Z) (acc : list Row) : list Row :=
  match todo with
  | O => acc
  | S todo' => sample_loop todo' (i + 1) (acc ++ [sample_row i])
  end.

Definition generate_sample_data (n : Z) : DataFrame :=
  pd_DataFrame (sample_loop (Z.to_nat n) 0 []).

(** ** Exceptions and outcomes *)

(** A raised exception: the name of its class ([type(e).__name__]) and whether
    the class derives from [Exception], which is what [except Exception]
    tests.  [KeyboardInterrupt], [SystemExit] and [GeneratorExit] derive from
    [BaseException] only. *)
Record exc : Type := mkExc {
  exc_name : string;
  exc_is_Exception : bool
}.

Definition AttributeError : exc := mkExc "AttributeError" true.
Definition KeyError : exc := mkExc "KeyError" true.
Definition ModuleNotFoundError : exc := mkExc "ModuleNotFoundError" true.
Definition KeyboardInterrupt : exc := mkExc "KeyboardInterrupt" false.

(** The result of running fallible code. *)
Inductive outcome (A : Type) : Type :=
| Return (a : A)
| Raised (e : exc).
Arguments Return {A} a.
Arguments Raised {A} e.

#[global] Instance outcome_ret : MRet outcome := fun A a => Return a.
#[global] Instance outcome_bind : MBind outcome := fun A B k m =>
  match m with
  | Return a => k a
  | Raised e => Raised e
  end.

(** Messages shown through [st.info] and [st.warning]. *)
Inductive notice : Type :=
| Info (msg : string)
| Warning (msg : string).

(** ** The external search module, as the script observes it *)

(** What [getattr(obj, name, default)] can find: nothing, or a value that is
    [None] or a [str] (the types snscrape declares for these attributes). *)
Inductive attr : Type :=
| Missing
| Attr (v : pyval).

(** [getattr(obj, name, default)] on an object whose attribute is [a]. *)
Definition getattr (a : attr) (default : pyval) : pyval :=
  match a with
  | Missing => default
  | Attr v => v
  end.

(** The attributes of [tweet.user] read by the script. *)
Record User : Type := mkUser {
  username : attr;
  displayname : attr;
  user_location : attr
}.

(** The value of [tweet.user]: [None] or a user object. *)
Inductive user_value : Type :=
| UserNone
| UserObj (u : User).

(** [getattr(tweet.user, name, None)]: on [None] every name is missing. *)
Definition user_attr (f : User -> attr) (u : user_value) : pyval :=
  match u with
  | UserNone => PNone
  | UserObj o => getattr (f o) PNone
  end.

(** An item yielded by [get_items()].  [user = None] stands for an item
    without a [user] attribute at all: [tweet.user] raises there. *)
Record Tweet : Type := mkTweet {
  user : option user_value;
  content : attr;
  rawContent : attr;
  tweet_url : attr
}.

(** One pull from the iterator. *)
Inductive step : Type :=
| Item (t : Tweet)
| StopIteration
| Raises (e : exc).

(** The module [snscrape.modules.twitter]:
    [TwitterSearchScraper(query).get_items()] as the sequence of results of
    its successive [next] calls (an exception while building the scraper is a
    [Raises] at pull 0). *)
Record sntwitter : Type := mkSn {
  get_items : string -> nat -> step
}.

(** What [importlib.import_module] does. *)
Inductive import_result : Type :=
| Imported (m : sntwitter)
| ImportRaises (e : exc).

(** [_get_snscrape]: [None] when the import raises an [Exception]. *)
Definition _get_snscrape (imp : import_result) : outcome (option sntwitter) :=
  match imp with
  | Imported m => Return (Some m)
  | ImportRaises e => if exc_is_Exception e then Return None else Raised e
  end.

(** ** Fetcher *)

(** The body of the loop of [scrape_tweets] after the [break] test: the five
    derived fields. *)
Definition normalise (tweet : Tweet) : outcome Row :=
  match user tweet with
  | None => Raised AttributeError
  | Some u =>
      let handle := py_or (user_attr username u) (PStr "") in
      let display_name := py_or (user_attr displayname u) handle in
      let location := py_or (user_attr user_location u) (PStr "") in
      let text := py_or (getattr (content tweet) PNone)
                        (getattr (rawContent tweet) (PStr "")) in
      let url := py_or (getattr (tweet_url tweet) PNone)
                       (PStr ("https://twitter.com/" ++ format handle)) in
      Return {| display_name := display_name;
                handle := if truthy handle then PStr ("@" ++ format handle)
                          else PStr "";
                text := text;
                url := url;
                location := py_or location (PStr "") |}
  end.

(** [for i, tweet in enumerate(items): if i >= limit: break; ...].
    [i] is the index of the next pull and [room] is [limit - i] as a natural
    number, so that [i >= limit] holds exactly when [room] is 0.  The item is
    pulled before the test, as [enumerate] does. *)
Fixpoint collect (items : nat -> step) (i : nat) (room : nat)
    (acc : list Row) : outcome (list Row) :=
  match items i with
  | StopIteration => Return acc
  | Raises e => Raised e
  | Item tweet =>
      match room with
      | O => Return acc
      | S room' =>
          row ← normalise tweet;
          collect items (S i) room' (acc ++ [row])
      end
  end.

Definition msg_not_installed : string :=
  "snscrape is not installed. Showing sample data. Install dependencies to enable live scraping.".
Definition msg_failed (e : exc) : string :=
  "Live scraping failed (" ++ exc_name e ++ "). Showing sample data instead.".
Definition msg_no_results : string :=
  "No live results returned. Showing sample data.".

(** [scrape_tweets(query, limit)]: the returned frame and the notices shown,
    or the exception that leaves the function. *)
Definition scrape_tweets (imp : import_result) (query : string) (limit : Z)
    : outcome (DataFrame * list notice) :=
  sn ← _get_snscrape imp;
  match sn with
  | None => Return (generate_sample_data limit, [Info msg_not_installed])
  | Some m =>
      match collect (get_items m query) 0 (Z.to_nat limit) [] with
      | Raised e =>
          if exc_is_Exception e
          then Return (generate_sample_data limit, [Warning (msg_failed e)])
          else Raised e
      | Return rs =>
          let df := pd_DataFrame rs in
          if df_empty df
          then Return (generate_sample_data limit, [Info msg_no_results])
          else Return (df, [])
      end
  end.

(** ** Region filter *)

(** [[r.strip().lower() for r in region_input.split(",") if r.strip()]] *)
Definition regions (region_input : string) : list string :=
  map (fun r => Py.lower (Py.strip r))
      (List.filter (fun r => negb (String.eqb (Py.strip r) ""))
                   (Py.split "," region_input)).

(** The closure [matches] of [apply_region_filter]. *)
Definition matches (regs : list string) (loc : pyval) : bool :=
  let loc_l := Py.lower (format (py_or loc (PStr ""))) in
  existsb (fun r => Py.contains r loc_l) regs.

(** [df[col]]: [KeyError] when the label is not a column. *)
Definition getitem_col (df : DataFrame) (col : string) : outcome (list pyval) :=
  if existsb (String.eqb col) (columns df)
  then Return (map (cell col) (rows df))
  else Raised KeyError.

(** The rows of [l] whose mask entry is [True], in order. *)
Fixpoint select {A : Type} (mask : list bool) (l : list A) : list A :=
  match mask, l with
  | b :: mask', x :: l' => if b then x :: select mask' l' else select mask' l'
  | _, _ => []
  end.

(** [df[mask]] for the mask that [df["location"].apply(matches)] returns: it
    has one entry per row.  With entries it is a boolean mask and selects
    rows under the same columns; without any (a frame of no rows) it carries
    no boolean type and pandas reads it as an empty list of column labels, so
    that no column is selected. *)
Definition getitem_mask (df : DataFrame) (mask : list bool) : DataFrame :=
  match mask with
  | [] => mkDF [] []
  | _ :: _ => mkDF (columns df) (select mask (rows df))
  end.

Definition apply_region_filter (df : DataFrame) (region_input : string)
    : outcome DataFrame :=
  if String.eqb (Py.strip region_input) "" then Return df
  else
    let regs := regions region_input in
    match regs with
    | [] => Return df
    | _ :: _ =>
        locs ← getitem_col df "location";
        Return (getitem_mask df (map (matches regs) locs))
    end.

(** ** Query builder *)

(** [f'{keywords} lang:en exclude:retweets exclude:replies'] *)
Definition query (keywords : string) : string :=
  keywords ++ " lang:en exclude:retweets exclude:replies".

(** ** CSV export *)

Definition dquote : ascii := ascii_of_nat 34.
Definition LF : ascii := ascii_of_nat 10.
Definition CR : ascii := ascii_of_nat 13.

(** Does the field need quoting (delimiter, quote character, line break)? *)
Fixpoint has_special (s : string) : bool :=
  match s with
  | EmptyString => false
  | String c r =>
      Ascii.eqb c "," || Ascii.eqb c dquote || Ascii.eqb c LF || Ascii.eqb c CR
      || has_special r
  end.

(** Every quote character written twice. *)
Fixpoint double_quotes (s : string) : string :=
  match s with
  | EmptyString => EmptyString
  | String c r =>
      if Ascii.eqb c dquote then String dquote (String dquote (double_quotes r))
      else String c (double_quotes r)
  end.

(** One field under minimal quoting. *)
Definition csv_field (s : string) : string :=
  if has_special s then String dquote (double_quotes s ++ String dquote "")
  else s.

(** A cell: a missing value is written as the empty field. *)
Definition csv_cell (v : pyval) : string :=
  match v with
  | PNone => ""
  | PStr s => csv_field s
  end.

(** One written record: the fields joined by commas, then the line
    terminator ([os.linesep], taken to be LF). *)
Definition csv_line (fields : list string) : string :=
  String.concat "," fields ++ String LF "".

(** The line of one row: a field per column, no index field. *)
Definition csv_row (cols : list string) (r : Row) : string :=
  csv_line (map (fun c => csv_cell (cell c r)) cols).

(** [df.to_csv(index=False)]: the header record, then one record per row. *)
Definition to_csv (df : DataFrame) : string :=
  csv_line (map csv_field (columns df))
  ++ String.concat "" (map (csv_row (columns df)) (rows df)).

(** [s.splitlines()] for LF-terminated text. *)
Fixpoint splitlines (s : string) : list string :=
  match s with
  | EmptyString => []
  | String c r =>
      if Ascii.eqb c LF then EmptyString :: splitlines r
      else match splitlines r with
           | h :: t => String c h :: t
           | [] => [String c EmptyString]
           end
  end.

(** ** Aggregator: jobs per location *)

(** [series.fillna(value)] *)
Definition fillna (value : string) (col : list pyval) : list pyval :=
  map (fun v => match v with PNone => PStr value | PStr _ => v end) col.

(** [series.replace(old, new)] *)
Definition replace (old new : string) (col : list pyval) : list pyval :=
  map (fun v => match v with
                | PStr s => if String.eqb s old then PStr new else v
                | PNone => v
                end) col.

Definition set_location (r : Row) (v : pyval) : Row :=
  {| display_name := display_name r; handle := handle r; text := text r;
     url := url r; location := v |}.

Fixpoint zip_with_rows (rs : list Row) (col : list pyval) : list Row :=
  match rs, col with
  | r :: rs', v :: col' => set_location r v :: zip_with_rows rs' col'
  | _, _ => []
  end.

(** [df.assign(location=col)]: a new frame whose location column is [col]. *)
Definition assign_location (df : DataFrame) (col : list pyval) : DataFrame :=
  mkDF (columns df) (zip_with_rows (rows df) col).

(** A frame of (location, size) pairs. *)
Definition counts : Type := list (string * nat).

(** Count one more row under key [k]; the groups are kept in ascending key
    order ([groupby] sorts the group keys: [sort=True] is its default). *)
Fixpoint bump (k : string) (g : counts) : counts :=
  match g with
  | [] => [(k, 1)]
  | (k', c) :: g' =>
      match String_as_OT.compare k k' with
      | Eq => (k', S c) :: g'
      | Lt => (k, 1) :: g
      | Gt => (k', c) :: bump k g'
      end
  end.

(** The keys of the location column; a missing key forms no group. *)
Definition group_keys (col : list pyval) : list string :=
  flat_map (fun v => match v with PNone => [] | PStr s => [s] end) col.

(** [df.groupby("location", as_index=False).size()] *)
Definition groupby_size (df : DataFrame) : counts :=
  fold_left (fun g k => bump k g) (group_keys (map location (rows df))) [].

(** A stable ascending sort by size (insertion sort). *)
Fixpoint insert_by_size (x : string * nat) (l : counts) : counts :=
  match l with
  | [] => [x]
  | y :: l' => if (snd x <=? snd y)%nat then x :: l
               else y :: insert_by_size x l'
  end.

Fixpoint stable_argsort (l : counts) : counts :=
  match l with
  | [] => []
  | x :: l' => insert_by_size x (stable_argsort l')
  end.

(** [.sort_values("size", ascending=False)]: pandas reverses the rows, sorts
    them ascending with the sort of the chosen [kind] and reverses the
    result.  The default kind (quicksort) promises no order among rows of
    equal size, so the sort is a parameter; [stable_argsort] is one choice. *)
Definition sort_values_desc (kind : counts -> counts) (g : counts) : counts :=
  rev (kind (rev g)).

(** What every kind of sort does: it permutes the rows into ascending
    size. *)
Definition sorts (kind : counts -> counts) : Prop :=
  forall l, Permutation (kind l) l
            /\ StronglySorted (fun x y => (snd x <= snd y)%nat) (kind l).

(** [.head(n)] *)
Definition head (n : nat) (g : counts) : counts := firstn n g.

(** The expression bound to [loc_counts]. *)
Definition loc_counts (kind : counts -> counts) (df_filtered : DataFrame)
    : outcome counts :=
  col ← getitem_col df_filtered "location";
  let assigned := assign_location df_filtered
                    (replace "" "Unknown" (fillna "" col)) in
  Return (head 15 (sort_values_desc kind (groupby_size assigned))).

(** ** The script from the sidebar values to the export *)

(** The values read from the sidebar widgets. *)
Record inputs : Type := mkInputs {
  keywords : string;
  max_tweets : Z;
  region : string;
  live : bool
}.

(** What the script has computed when it reaches the charts. *)
Record page : Type := mkPage {
  page_query : string;
  page_notices : list notice;
  df : DataFrame;
  df_filtered : DataFrame;
  shown : nat * nat;
  csv : string
}.

Definition run (imp : import_result) (inp : inputs) : outcome page :=
  let q := query (keywords inp) in
  fetched ← (if live inp then scrape_tweets imp q (max_tweets inp)
             else Return (generate_sample_data (max_tweets inp), []));
  let '(d, ns) := fetched in
  filtered ← apply_region_filter d (region inp);
  Return {| page_query := q;
            page_notices := ns;
            df := d;
            df_filtered := filtered;
            shown := (df_len filtered, df_len d);
            csv := to_csv filtered |}.

(** ** Objects and references: the charts section and the feed

    The frames live in a store of objects; a variable holds a reference.
    Every pandas call of the aggregation builds a new object. *)

Inductive object : Type :=
| OFrame (d : DataFrame)
| OSeries (col : list pyval)
| OCounts (g : counts).

Abbreviation store := (gmap nat object).

Definition TypeError : exc := mkExc "TypeError" true.

(** Code running over the store. *)
Definition M (A : Type) : Type := store -> outcome (A * store).

#[global] Instance M_ret : MRet M := fun A a h => Return (a, h).
#[global] Instance M_bind : MBind M := fun A B k m h =>
  match m h with
  | Return (a, h') => k a h'
  | Raised e => Raised e
  end.

Definition lift {A : Type} (o : outcome A) : M A := fun h =>
  match o with
  | Return a => Return (a, h)
  | Raised e => Raised e
  end.

(** A new object, at a reference not in use. *)
Definition alloc (o : object) : M nat := fun h =>
  let a := fresh (dom h) in Return (a, <[a := o]> h).

Definition get_frame (a : nat) : M DataFrame := fun h =>
  match h !! a with
  | Some (OFrame d) => Return (d, h)
  | _ => Raised TypeError
  end.

Definition get_series (a : nat) : M (list pyval) := fun h =>
  match h !! a with
  | Some (OSeries c) => Return (c, h)
  | _ => Raised TypeError
  end.

Definition get_counts (a : nat) : M counts := fun h =>
  match h !! a with
  | Some (OCounts g) => Return (g, h)
  | _ => Raised TypeError
  end.

Definition m_getitem (a : nat) (col : string) : M nat :=
  d ← get_frame a; c ← lift (getitem_col d col); alloc (OSeries c).

Definition m_fillna (s : nat) (value : string) : M nat :=
  c ← get_series s; alloc (OSeries (fillna value c)).

Definition m_replace (s : nat) (old new : string) : M nat :=
  c ← get_series s; alloc (OSeries (replace old new c)).

Definition m_assign_location (a s : nat) : M nat :=
  d ← get_frame a; c ← get_series s; alloc (OFrame (assign_location d c)).

Definition m_groupby_size (a : nat) : M nat :=
  d ← get_frame a; alloc (OCounts (groupby_size d)).

Definition m_sort_values_desc (kind : counts -> counts) (a : nat) : M nat :=
  g ← get_counts a; alloc (OCounts (sort_values_desc kind g)).

Definition m_head (n : nat) (a : nat) : M nat :=
  g ← get_counts a; alloc (OCounts (head n g)).

(** The expression bound to [loc_counts], call by call. *)
Definition m_loc_counts (kind : counts -> counts) (df_filtered : nat) : M nat :=
  s0 ← m_getitem df_filtered "location";
  s1 ← m_fillna s0 "";
  s2 ← m_replace s1 "" "Unknown";
  assigned ← m_assign_location df_filtered s2;
  grouped ← m_groupby_size assigned;
  sorted ← m_sort_values_desc kind grouped;
  m_head 15 sorted.

(** The chart library, when it can be imported: building and showing the
    chart from the reference to [loc_counts] leaves a store and may raise. *)
Record altair : Type := mkAltair {
  render : nat -> store -> store * option exc
}.

(** The chart library works on the object it is handed: objects that exist
    at other references are left as they are. *)
Definition confined (alt : altair) : Prop :=
  forall (b : nat) (h : store) (a : nat),
    a <> b -> is_Some (h !! a) -> fst (render alt b h) !! a = h !! a.

Definition msg_no_chart_data : string := "No data to chart yet.".
Definition msg_no_altair : string := "Altair is not installed; skipping charts.".

(** [try: import altair ...; st.altair_chart(chart) except Exception: ...] *)
Definition try_chart (alt : option altair) (lc : nat) : M (list notice) :=
  fun h =>
    match alt with
    | None => Return ([Info msg_no_altair], h)
    | Some lib =>
        match render lib lc h with
        | (h', None) => Return ([], h')
        | (h', Some e) =>
            if exc_is_Exception e then Return ([Info msg_no_altair], h')
            else Raised e
        end
    end.

(** The body of the "Optional charts" expander. *)
Definition charts (kind : counts -> counts) (alt : option altair)
    (df_filtered : nat) : M (list notice) :=
  d ← get_frame df_filtered;
  if df_empty d then mret [Info msg_no_chart_data]
  else lc ← m_loc_counts kind df_filtered; try_chart alt lc.

(** The arguments of one [tweet_card] call. *)
Definition card : Type := (pyval * pyval * pyval * pyval * pyval)%type.

Definition card_of (r : Row) : card :=
  (display_name r, handle r, text r, url r, location r).

Definition msg_no_tweets : string :=
  "No tweets found with the current filters. Try changing keywords or removing the region filter.".

(** The feed: a warning on an empty frame, else a card per row. *)
Definition feed (df_filtered : nat) : M (list notice * list card) :=
  d ← get_frame df_filtered;
  if df_empty d then mret ([Warning msg_no_tweets], [])
  else mret ([], map card_of (rows d)).

(** From the export to the feed: the CSV text, the charts, the cards. *)
Definition export_charts_feed (kind : counts -> counts) (alt : option altair)
    (df_filtered : nat) : M (string * list notice * list card) :=
  d ← get_frame df_filtered;
  let text := to_csv d in
  ns ← charts kind alt df_filtered;
  shown ← feed df_filtered;
  mret (text, ns ++ fst shown, snd shown).

(** ** The live iteration as the loop runs it

    [loop items limit i acc res]: entering the loop for pull [i] with the rows
    [acc] collected so far, the [try] block ends with [res]. *)
Inductive loop (items : nat -> step) (limit : Z)
    : nat -> list Row -> outcome (list Row) -> Prop :=
| loop_stop i acc :
    items i = StopIteration ->
    loop items limit i acc (Return acc)
| loop_raises i acc e :
    items i = Raises e ->
    loop items limit i acc (Raised e)
| loop_break i acc t :
    items i = Item t -> (limit <= Z.of_nat i)%Z ->
    loop items limit i acc (Return acc)
| loop_bad_item i acc t e :
    items i = Item t -> (Z.of_nat i < limit)%Z ->
    normalise t = Raised e ->
    loop items limit i acc (Raised e)
| loop_row i acc t r res :
    items i = Item t -> (Z.of_nat i < limit)%Z ->
    normalise t = Return r ->
    loop items limit (S i) (acc ++ [r]) res ->
    loop items limit i acc res.

(** An iterator that yields the tweets of [ts] and then answers [last]. *)
Definition items_of (ts : list Tweet) (last : step) : nat -> step :=
  fun i => match nth_error ts i with
           | Some t => Item t
           | None => last
           end.

(** ** Shapes of fields *)

Definition is_str (v : pyval) : Prop := exists s, v = PStr s.

Definition begins_with_at (s : string) : bool :=
  match s with
  | String c _ => Ascii.eqb c "@"
  | EmptyString => false
  end.

(** The empty string, or one "@" followed by text that does not begin
    with "@". *)
Definition handle_ok (v : pyval) : Prop :=
  v = PStr "" \/ exists u, v = PStr (String "@" u) /\ begins_with_at u = false.

(** The username the source reports for a tweet does not begin with "@". *)
Definition clean_username (t : Tweet) : Prop :=
  forall usr s, user t = Some (UserObj usr) -> username usr = Attr (PStr s) ->
                begins_with_at s = false.

(** ** Inputs of the examples *)

Definition plain_user (name : string) : user_value :=
  UserObj (mkUser (Attr (PStr name)) (Attr PNone) (Attr PNone)).

Definition plain_tweet (name body : string) : Tweet :=
  mkTweet (Some (plain_user name)) (Attr (PStr body)) Missing Missing.

(** A module whose search yields [ts] and then answers [last]. *)
Definition module_of (ts : list Tweet) (last : step) : sntwitter :=
  mkSn (fun _ => items_of ts last).

(** The keyword expression of the example, with its quotes. *)
Definition quoted_ui_designer : string :=
  String dquote ("ui designer" ++ String dquote "").

(** [sub] occurs in [s]. *)
Definition substring_of (sub s : string) : Prop :=
  exists before after : string, s = (before ++ sub ++ after)%string.

(** The tokens of a filter string, in the order of the description: split on
    commas, trim, drop the empty ones, lower-case. *)
Definition tokens (region_input : string) : list string :=
  map Py.lower
      (List.filter (fun r => negb (String.eqb r ""))
                   (map Py.strip (Py.split "," region_input))).

(** The table of the region filter example. *)
Definition example_locations : DataFrame :=
  mkDF record_columns
    (map (fun loc => mkRow (PStr "A") (PStr "@a") (PStr "t") (PStr "u") (PStr loc))
         ["Bengaluru, India"; "Remote"; "San Francisco, CA"; ""]).

(** The header record of the export. *)
Definition csv_header : string := "display_name,handle,text,url,location".

(** The record written for one row: its five fields. *)
Definition csv_record (r : Row) : string :=
  csv_line [csv_cell (display_name r); csv_cell (handle r); csv_cell (text r);
            csv_cell (url r); csv_cell (location r)].

(** Sample mode with forty tweets and no region filter. *)
Definition sample_run_inputs (k : string) : inputs :=
  mkInputs k 40 "" false.

(** ** What the aggregation computes *)

(** The group a row is counted in: its location, or "Unknown" when the
    location is empty or missing. *)
Definition label (r : Row) : string :=
  match location r with
  | PNone => "Unknown"
  | PStr s => if String.eqb s "" then "Unknown" else s
  end.

(** The number of entries of [g] under key [l], counted with their sizes. *)
Fixpoint total (g : counts) (l : string) : nat :=
  match g with
  | [] => 0
  | (k, c) :: g' => (if String.eqb k l then c else 0) + total g' l
  end.

(** Larger counts first. *)
Definition by_size_desc (x y : string * nat) : Prop := (snd y <= snd x)%nat.

(** Larger counts first, equal counts by ascending location. *)
Definition ranked (x y : string * nat) : Prop :=
  (snd y < snd x)%nat \/ (snd x = snd y /\ Py.str_lt (fst x) (fst y)).

(** The order of the groups before they are ranked: ascending location. *)
Definition by_key (x y : string * nat) : Prop := Py.str_lt (fst x) (fst y).

(** The order inside the stable ascending sort of the reversed groups. *)
Definition rising (x y : string * nat) : Prop :=
  (snd x < snd y)%nat \/ (snd y = snd x /\ Py.str_lt (fst y) (fst x)).

(** The table of the aggregation example. *)
Definition example_counts_input : DataFrame :=
  mkDF record_columns
    (map (fun loc => mkRow (PStr "A") (PStr "@a") (PStr "t") (PStr "u") (PStr loc))
         ["Mumbai"; "Mumbai"; ""; "Pune"]).

(** A store holding the sample frame of three rows at reference 0. *)
Definition example_store : store :=
  {[ 0%nat := OFrame (generate_sample_data 3) ]}.

(** ** Card rendering *)

(** [s.replace(old, new)] for a one-character [old]. *)
Fixpoint str_replace (old : ascii) (new : string) (s : string) : string :=
  match s with
  | EmptyString => EmptyString
  | String c r =>
      if Ascii.eqb c old then new ++ str_replace old new r
      else String c (str_replace old new r)
  end.

(** [safe_text] of [tweet_card]: the four replacements, in their order. *)
Definition safe_text (text : pyval) : string :=
  str_replace LF "<br>"
    (str_replace ">" "&gt;"
       (str_replace "<" "&lt;"
          (str_replace "&" "&amp;" (format (py_or text (PStr "")))))).

(** What [tweet_card] puts into its markup: the link target, the header name
    and handle, the body and the location line.  The fixed markup around
    these five pieces is left out. *)
Record card_html : Type := mkCard {
  card_href : string;
  card_name : string;
  card_handle : string;
  card_body : string;
  card_location : string
}.

Definition tweet_card (display_name handle text url location : pyval)
    : card_html :=
  {| card_href := format url;
     card_name := format display_name;
     card_handle := format handle;
     card_body := safe_text text;
     card_location := if truthy location then format location
                      else "Location not specified" |}.

(** [tweet_card] on the fields of one row, as the feed loop calls it. *)
Definition render_row (r : Row) : card_html :=
  tweet_card (display_name r) (handle r) (text r) (url r) (location r).

(** The replacement of one character of the text. *)
Definition escape_char (c : ascii) : string :=
  if Ascii.eqb c "&" then "&amp;"
  else if Ascii.eqb c "<" then "&lt;"
  else if Ascii.eqb c ">" then "&gt;"
  else if Ascii.eqb c LF then "<br>"
  else String c "".

(** The text with each character replaced on its own, in one pass. *)
Fixpoint escape (s : string) : string :=
  match s with
  | EmptyString => EmptyString
  | String c r => escape_char c ++ escape r
  end.

(** Reading a body back: the four replacement texts give back their
    character, anything else stands for itself. *)
Fixpoint unescape (s : string) : string :=
  match s with
  | EmptyString => EmptyString
  | String c r =>
      if Ascii.eqb c "&" then
        match r with
        | String c1 (String c2 (String c3 r3)) =>
            if Ascii.eqb c1 "l" && Ascii.eqb c2 "t" && Ascii.eqb c3 ";"
            then String "<" (unescape r3)
            else if Ascii.eqb c1 "g" && Ascii.eqb c2 "t" && Ascii.eqb c3 ";"
            then String ">" (unescape r3)
            else match r3 with
                 | String c4 r4 =>
                     if Ascii.eqb c1 "a" && Ascii.eqb c2 "m"
                        && Ascii.eqb c3 "p" && Ascii.eqb c4 ";"
                     then String "&" (unescape r4)
                     else String c (unescape r)
                 | EmptyString => String c (unescape r)
                 end
        | _ => String c (unescape r)
        end
      else if Ascii.eqb c "<" then
        match r with
        | String c1 (String c2 (String c3 r3)) =>
            if Ascii.eqb c1 "b" && Ascii.eqb c2 "r" && Ascii.eqb c3 ">"
            then String LF (unescape r3)
            else String c (unescape r)
        | _ => String c (unescape r)
        end
      else String c (unescape r)
  end.

(** Does the character occur in the string? *)
Fixpoint has_char (x : ascii) (s : string) : bool :=
  match s with
  | EmptyString => false
  | String c r => Ascii.eqb c x || has_char x r
  end.

(** ** Reading sample data back *)

(** [int(s)] for a decimal numeral. *)
Definition int_of_str (s : string) : option Z :=
  option_map Z.of_int (NilZero.int_of_string s).

(** Two strings differ at a position that both have. *)
Fixpoint diverge (a b : string) : bool :=
  match a, b with
  | String x a', String y b' => negb (Ascii.eqb x y) || diverge a' b'
  | _, _ => false
  end.

(** The middle of a sample url: the handle, up to its closing slash. *)
Definition handle_slash (tpl : template) : string :=
  let '(_, hdl, _, _) := tpl in hdl ++ "/".

(** ** Measures used in the properties of the export and the counts *)

(** How often the character occurs in the string. *)
Fixpoint count_char (x : ascii) (s : string) : nat :=
  match s with
  | EmptyString => 0
  | String c r => (if Ascii.eqb c x then 1 else 0) + count_char x r
  end.

(** The text of a cell as it is written: nothing for a missing value. *)
Definition cell_text (v : pyval) : string :=
  match v with
  | PNone => ""
  | PStr s => s
  end.

(** No field of the row holds a line feed. *)
Definition one_line (r : Row) : bool :=
  negb (has_char LF (cell_text (display_name r)))
  && negb (has_char LF (cell_text (handle r)))
  && negb (has_char LF (cell_text (text r)))
  && negb (has_char LF (cell_text (url r)))
  && negb (has_char LF (cell_text (location r))).

(** The location of the row is missing, empty, or the word "Unknown". *)
Definition unknown_location (r : Row) : bool :=
  match location r with
  | PNone => true
  | PStr s => String.eqb s "" || String.eqb s "Unknown"
  end.

(** * Properties *)

(** ** Sample generator *)

Lemma rows_pd_DataFrame (rs : list Row) : rows (pd_DataFrame rs) = rs.
Proof. destruct rs; reflexivity. Qed.

Lemma columns_pd_DataFrame (rs : list Row) :
  rs <> [] -> columns (pd_DataFrame rs) = record_columns.
Proof. destruct rs; [congruence | reflexivity]. Qed.

Lemma df_empty_pd_DataFrame (rs : list Row) :
  df_empty (pd_DataFrame rs) = match rs with [] => true | _ => false end.
Proof. destruct rs; reflexivity. Qed.

(** The loop appends the rows of the indices [i], [i+1], ... in order. *)
Lemma sample_loop_spec (todo : nat) (i : Z) (acc : list Row) :
  sample_loop todo i acc
  = acc ++ map (fun k => sample_row (i + Z.of_nat k)) (seq 0 todo).
Proof.
  revert i acc. induction todo as [|todo IH]; intros i acc.
  - simpl. now rewrite app_nil_r.
  - cbn [sample_loop]. rewrite IH. rewrite <- app_assoc. f_equal.
    cbn [seq map app]. rewrite Z.add_0_r. f_equal.
    rewrite <- seq_shift, map_map. apply map_ext. intros k.
    f_equal. lia.
Qed.

Lemma rows_generate_sample_data (n : Z) :
  rows (generate_sample_data n)
  = map (fun k => sample_row (Z.of_nat k)) (seq 0 (Z.to_nat n)).
Proof.
  unfold generate_sample_data. rewrite rows_pd_DataFrame, sample_loop_spec.
  reflexivity.
Qed.

Lemma length_generate_sample_data (n : Z) :
  df_len (generate_sample_data n) = Z.to_nat n.
Proof.
  unfold df_len. rewrite rows_generate_sample_data.
  now rewrite length_map, length_seq.
Qed.

Lemma nth_generate_sample_data (n i : Z) :
  (0 <= i < n)%Z ->
  nth_error (rows (generate_sample_data n)) (Z.to_nat i) = Some (sample_row i).
Proof.
  intros Hi. rewrite rows_generate_sample_data.
  rewrite nth_error_map, nth_error_seq.
  destruct (Nat.ltb_spec (Z.to_nat i) (Z.to_nat n)) as [_|Hge]; [|lia].
  cbn. do 2 f_equal. lia.
Qed.

Lemma columns_generate_sample_data (n : Z) :
  (0 < n)%Z -> columns (generate_sample_data n) = record_columns.
Proof.
  intros Hn. unfold generate_sample_data. apply columns_pd_DataFrame.
  intros Hnil. apply (f_equal (@List.length Row)) in Hnil.
  rewrite sample_loop_spec in Hnil. cbn [app] in Hnil.
  rewrite length_map, length_seq in Hnil. cbn in Hnil. lia.
Qed.

(** C4: [generate_sample_data n], for [n >= 0], has exactly [n] rows; row [i]
    is built from the catalog entry at position [i mod 8]: its text is the
    entry's text followed by " #" and the decimal of [1000 + i], its url is
    "https://twitter.com/", the entry's handle, "/status/" and the decimal of
    [1700000000000000000 + i], its handle is "@" followed by the entry's
    handle; [n = 0] gives no rows, and the result depends on [n] alone. *)
Theorem generate_sample_data_rows (n : Z) :
  (0 <= n)%Z ->
  List.length (rows (generate_sample_data n)) = Z.to_nat n
  /\ (n = 0%Z -> rows (generate_sample_data n) = [])
  /\ (forall i : Z, (0 <= i < n)%Z ->
        exists name hdl txt loc,
          nth_error names (Z.to_nat (i mod 8)) = Some (name, hdl, txt, loc)
          /\ nth_error (rows (generate_sample_data n)) (Z.to_nat i)
             = Some {| display_name := PStr name;
                       handle := PStr ("@" ++ hdl);
                       text := PStr (txt ++ " #" ++ Py.str_of_int (1000 + i));
                       url := PStr ("https://twitter.com/" ++ hdl ++ "/status/"
                                    ++ Py.str_of_int (1700000000000000000 + i));
                       location := PStr loc |})
  /\ (forall m : Z, m = n -> generate_sample_data m = generate_sample_data n).
Proof.
  intros Hn. split; [|split; [|split]].
  - apply length_generate_sample_data.
  - intros ->. reflexivity.
  - intros i Hi. rewrite (nth_generate_sample_data n i Hi).
    unfold sample_row, names_at.
    change (Z.of_nat (List.length names)) with 8%Z.
    assert (Hlt : (Z.to_nat (i mod 8) < List.length names)%nat).
    { change (List.length names) with 8%nat.
      pose proof (Z.mod_pos_bound i 8 ltac:(lia)). lia. }
    destruct (nth_error names (Z.to_nat (i mod 8))) as [[[[name hdl] txt] loc]|] eqn:E.
    + exists name, hdl, txt, loc. split; [reflexivity|].
      rewrite (nth_error_nth _ _ _ E). reflexivity.
    + apply nth_error_None in E. lia.
  - intros m ->. reflexivity.
Qed.

Lemma generate_sample_data_rows_witness :
  List.length (rows (generate_sample_data 3)) = 3%nat.
Proof.
  exact (proj1 (generate_sample_data_rows 3 ltac:(lia))).
Defined.

(** ** Query builder *)

(** C8: the query is the keyword expression, unchanged, followed by
    " lang:en", " exclude:retweets" and " exclude:replies"; for the keyword
    input "ui designer" in quotes it is that phrase in quotes followed by
    " lang:en exclude:retweets exclude:replies". *)
Theorem query_shape (k : string) :
  query k = (k ++ " " ++ "lang:en" ++ " " ++ "exclude:retweets" ++ " "
                ++ "exclude:replies")%string
  /\ String.prefix k (query k) = true
  /\ query quoted_ui_designer
     = String dquote
         ("ui designer" ++ String dquote " lang:en exclude:retweets exclude:replies").
Proof.
  split; [reflexivity|]. split; [|reflexivity].
  unfold query. induction k as [|c k IH]; simpl.
  - reflexivity.
  - destruct (ascii_dec c c); [exact IH | congruence].
Qed.

(** ** Fetcher *)

Lemma collect_eq (items : nat -> step) (i room : nat) (acc : list Row) :
  collect items i room acc
  = match items i with
    | StopIteration => Return acc
    | Raises e => Raised e
    | Item tweet =>
        match room with
        | O => Return acc
        | S room' =>
            match normalise tweet with
            | Return row => collect items (S i) room' (acc ++ [row])
            | Raised e => Raised e
            end
        end
    end.
Proof. destruct room; reflexivity. Qed.

(** The function computes the run of the loop, with [room = limit - i]. *)
Lemma loop_collect (items : nat -> step) (limit : Z) (i : nat)
    (acc : list Row) (res : outcome (list Row)) :
  loop items limit i acc res ->
  collect items i (Z.to_nat (limit - Z.of_nat i)) acc = res.
Proof.
  induction 1 as [i acc H|i acc e H|i acc t H Hge|i acc t e H Hlt Hn
                  |i acc t r res H Hlt Hn _ IH];
    rewrite collect_eq, H; try reflexivity.
  - replace (Z.to_nat (limit - Z.of_nat i)) with 0%nat by lia. reflexivity.
  - replace (Z.to_nat (limit - Z.of_nat i))
      with (S (Z.to_nat (limit - Z.of_nat (S i)))) by lia.
    now rewrite Hn.
  - replace (Z.to_nat (limit - Z.of_nat i))
      with (S (Z.to_nat (limit - Z.of_nat (S i)))) by lia.
    now rewrite Hn.
Qed.

(** Every run of the loop ends: the function's result is a run. *)
Lemma collect_loop (items : nat -> step) (limit : Z) (i : nat)
    (acc : list Row) :
  loop items limit i acc
       (collect items i (Z.to_nat (limit - Z.of_nat i)) acc).
Proof.
  remember (Z.to_nat (limit - Z.of_nat i)) as room eqn:Hroom.
  revert i acc Hroom. induction room as [|room IH]; intros i acc Hroom;
    rewrite collect_eq; destruct (items i) as [t| |e] eqn:H.
  - apply loop_break with t; [exact H | lia].
  - now apply loop_stop.
  - now apply loop_raises.
  - destruct (normalise t) as [r|e] eqn:Hn.
    + apply loop_row with t r; [exact H | lia | exact Hn |].
      apply IH. lia.
    + apply loop_bad_item with t; [exact H | lia | exact Hn].
  - now apply loop_stop.
  - now apply loop_raises.
Qed.

Lemma loop_functional (items : nat -> step) (limit : Z) (i : nat)
    (acc : list Row) (r1 r2 : outcome (list Row)) :
  loop items limit i acc r1 -> loop items limit i acc r2 -> r1 = r2.
Proof.
  intros H1 H2. apply loop_collect in H1, H2. congruence.
Qed.

(** The rows collected are the ones held on entry followed by at most
    [room] normalised items, each pulled from the iterator. *)
Lemma collect_rows (items : nat -> step) (room i : nat) (acc rs : list Row) :
  collect items i room acc = Return rs ->
  exists new,
    rs = acc ++ new
    /\ (List.length new <= room)%nat
    /\ Forall (fun r => exists j t, items j = Item t /\ normalise t = Return r)
              new.
Proof.
  revert i acc. induction room as [|room IH]; intros i acc;
    rewrite collect_eq; destruct (items i) as [t| |e] eqn:H; intros Hc;
    try discriminate;
    try (injection Hc as <-; exists []; rewrite app_nil_r;
         repeat split; [cbn; lia | constructor]).
  destruct (normalise t) as [r|e] eqn:Hn; [|discriminate].
  apply IH in Hc as (new & -> & Hlen & Hall).
  exists (r :: new). rewrite <- app_assoc. repeat split.
  - cbn. lia.
  - constructor; [exists i, t; auto | exact Hall].
Qed.

(** An iterator that yields exactly [ts], every item of which normalises,
    and then stops, below the limit: the rows are the normalised items. *)
Lemma collect_yields (items : nat -> step) (ts : list Tweet)
    (rs : list Row) (room i : nat) (acc : list Row) :
  (forall j t, nth_error ts j = Some t -> items (i + j)%nat = Item t) ->
  items (i + List.length ts)%nat = StopIteration ->
  Forall2 (fun t r => normalise t = Return r) ts rs ->
  (List.length ts <= room)%nat ->
  collect items i room acc = Return (acc ++ rs).
Proof.
  intros Hy Hstop Hn. revert i room acc Hy Hstop.
  induction Hn as [|t r ts rs Htr _ IH]; intros i room acc Hy Hstop Hroom.
  - rewrite collect_eq. cbn in Hstop. rewrite Nat.add_0_r in Hstop.
    rewrite Hstop. now rewrite app_nil_r.
  - rewrite collect_eq. pose proof (Hy 0%nat t eq_refl) as H0.
    rewrite Nat.add_0_r in H0. rewrite H0.
    destruct room as [|room]; [cbn in Hroom; lia|].
    rewrite Htr. rewrite (IH (S i) room (acc ++ [r])).
    + now rewrite <- app_assoc.
    + intros j t' Hj. replace (S i + j)%nat with (i + S j)%nat by lia.
      now apply Hy.
    + cbn in Hstop. now replace (S i + List.length ts)%nat
        with (i + S (List.length ts))%nat by lia.
    + cbn in Hroom. lia.
Qed.

Lemma scrape_tweets_unfold (imp : import_result) (q : string) (limit : Z) :
  scrape_tweets imp q limit
  = match imp with
    | ImportRaises e =>
        if exc_is_Exception e
        then Return (generate_sample_data limit, [Info msg_not_installed])
        else Raised e
    | Imported m =>
        match collect (get_items m q) 0 (Z.to_nat limit) [] with
        | Raised e =>
            if exc_is_Exception e
            then Return (generate_sample_data limit, [Warning (msg_failed e)])
            else Raised e
        | Return [] =>
            Return (generate_sample_data limit, [Info msg_no_results])
        | Return (r :: rs) => Return (mkDF record_columns (r :: rs), [])
        end
    end.
Proof.
  unfold scrape_tweets. destruct imp as [m|e]; cbn.
  - destruct (collect _ _ _ _) as [[|r rs]|e]; reflexivity.
  - destruct (exc_is_Exception e); reflexivity.
Qed.

(** C1, as the code has it: for a positive limit, when the import raises an
    exception that derives from [Exception], or the iteration raises one, or
    the iteration ends with no record collected, [scrape_tweets] returns
    exactly [generate_sample_data limit] and a notice; the only exceptions
    that leave [scrape_tweets] are those that do not derive from
    [Exception], raised by the import or by the iteration. *)
Theorem scrape_tweets_fallback (imp : import_result) (q : string) (limit : Z) :
  (0 < limit)%Z ->
  (forall e, imp = ImportRaises e -> exc_is_Exception e = true ->
     scrape_tweets imp q limit
     = Return (generate_sample_data limit, [Info msg_not_installed]))
  /\ (forall m e, imp = Imported m ->
        loop (get_items m q) limit 0 [] (Raised e) ->
        exc_is_Exception e = true ->
        scrape_tweets imp q limit
        = Return (generate_sample_data limit, [Warning (msg_failed e)]))
  /\ (forall m, imp = Imported m ->
        loop (get_items m q) limit 0 [] (Return []) ->
        scrape_tweets imp q limit
        = Return (generate_sample_data limit, [Info msg_no_results]))
  /\ (forall e, scrape_tweets imp q limit = Raised e ->
        exc_is_Exception e = false
        /\ (imp = ImportRaises e
            \/ exists m, imp = Imported m
                         /\ loop (get_items m q) limit 0 [] (Raised e))).
Proof.
  intros Hpos. rewrite scrape_tweets_unfold. repeat split.
  - intros e -> He. now rewrite He.
  - intros m e -> Hl He. apply loop_collect in Hl.
    rewrite Z.sub_0_r in Hl. now rewrite Hl, He.
  - intros m -> Hl. apply loop_collect in Hl.
    rewrite Z.sub_0_r in Hl. now rewrite Hl.
  - destruct imp as [m|e'].
    + destruct (collect _ _ _ _) as [[|r rs]|e'] eqn:Hc in H; try discriminate.
      destruct (exc_is_Exception e') eqn:He; [discriminate|]. congruence.
    + destruct (exc_is_Exception e') eqn:He; [discriminate|]. congruence.
  - destruct imp as [m|e'].
    + right. exists m. split; [reflexivity|].
      pose proof (collect_loop (get_items m q) limit 0 []) as Hl.
      cbn [Z.of_nat] in Hl. rewrite Z.sub_0_r in Hl.
      destruct (collect _ _ _ _) as [[|r rs]|e'] eqn:Hc; try discriminate.
      destruct (exc_is_Exception e'); [discriminate|].
      injection H as <-. exact Hl.
    + left. destruct (exc_is_Exception e'); [discriminate|]. congruence.
Qed.

Lemma scrape_tweets_fallback_witness :
  scrape_tweets (Imported (module_of [] (Raises AttributeError))) "jobs" 10
  = Return (generate_sample_data 10,
            [Warning (msg_failed AttributeError)]).
Proof.
  refine (proj1 (proj2 (scrape_tweets_fallback
            (Imported (module_of [] (Raises AttributeError))) "jobs" 10 _))
            (module_of [] (Raises AttributeError)) AttributeError
            eq_refl _ eq_refl).
  - lia.
  - apply loop_raises. reflexivity.
Defined.

(** C1 as stated fails: an iteration that raises [KeyboardInterrupt] is not
    answered with sample data; the exception leaves [scrape_tweets]. *)
Lemma scrape_tweets_propagates_interrupt :
  loop (get_items (module_of [] (Raises KeyboardInterrupt)) "jobs") 10 0 []
       (Raised KeyboardInterrupt)
  /\ scrape_tweets (Imported (module_of [] (Raises KeyboardInterrupt))) "jobs" 10
     = Raised KeyboardInterrupt
  /\ ~ (forall (imp : import_result) (q : string) (limit : Z),
          (0 < limit)%Z ->
          exists res, scrape_tweets imp q limit = Return res).
Proof.
  split; [apply loop_raises; reflexivity|]. split; [reflexivity|].
  intros H.
  destruct (H (Imported (module_of [] (Raises KeyboardInterrupt))) "jobs" 10%Z
              ltac:(lia)) as [res Hres].
  discriminate Hres.
Qed.

(** C5: for a positive limit the frame returned by [scrape_tweets] has at
    most [limit] rows; and when the iterator yields at least one and fewer
    than [limit] items, each of which normalises, and then stops, the frame
    returned holds exactly the normalised items, in order, and no notice is
    shown: sample data is not substituted. *)
Theorem scrape_tweets_length (imp : import_result) (q : string) (limit : Z) :
  (0 < limit)%Z ->
  (forall d ns, scrape_tweets imp q limit = Return (d, ns) ->
     (Z.of_nat (df_len d) <= limit)%Z)
  /\ (forall m ts rs, imp = Imported m ->
        (forall j t, nth_error ts j = Some t -> get_items m q j = Item t) ->
        get_items m q (List.length ts) = StopIteration ->
        Forall2 (fun t r => normalise t = Return r) ts rs ->
        (1 <= List.length ts)%nat -> (Z.of_nat (List.length ts) < limit)%Z ->
        scrape_tweets imp q limit = Return (mkDF record_columns rs, [])).
Proof.
  intros Hpos. rewrite scrape_tweets_unfold. split.
  - intros d ns Hs.
    assert (Hsample : (Z.of_nat (df_len (generate_sample_data limit)) <= limit)%Z).
    { rewrite length_generate_sample_data. lia. }
    destruct imp as [m|e].
    + destruct (collect _ _ _ _) as [[|r rs]|e] eqn:Hc.
      * injection Hs as <- _. exact Hsample.
      * injection Hs as <- _. apply collect_rows in Hc as (new & Hnew & Hlen & _).
        cbn [app] in Hnew. subst new. unfold df_len. cbn [rows]. lia.
      * destruct (exc_is_Exception e); [|discriminate].
        injection Hs as <- _. exact Hsample.
    + destruct (exc_is_Exception e); [|discriminate].
      injection Hs as <- _. exact Hsample.
  - intros m ts rs -> Hy Hstop Hn Hone Hlt.
    rewrite (collect_yields (get_items m q) ts rs (Z.to_nat limit) 0 []
               Hy Hstop Hn ltac:(lia)).
    cbn [app]. destruct Hn as [|t r ts rs]; [cbn in Hone; lia | reflexivity].
Qed.

Lemma scrape_tweets_length_witness :
  scrape_tweets
    (Imported (module_of [plain_tweet "bob" "Hiring a designer"] StopIteration))
    "jobs" 10
  = Return (mkDF record_columns
              [mkRow (PStr "bob") (PStr "@bob") (PStr "Hiring a designer")
                     (PStr "https://twitter.com/bob") (PStr "")], []).
Proof.
  refine (proj2 (scrape_tweets_length
            (Imported (module_of [plain_tweet "bob" "Hiring a designer"]
                                 StopIteration)) "jobs" 10 _)
            _ [plain_tweet "bob" "Hiring a designer"] _ eq_refl _ eq_refl _ _ _).
  - lia.
  - intros [|[|j]] t Hj; try discriminate. injection Hj as <-. reflexivity.
  - repeat constructor.
  - cbn. lia.
  - cbn. lia.
Defined.

(** ** Shapes of the fields *)

Lemma py_or_str (a : pyval) (s : string) :
  (a = PNone \/ is_str a) -> is_str (py_or a (PStr s)).
Proof.
  intros [->|[x ->]]; unfold py_or; cbn.
  - now exists s.
  - destruct (negb _); [now exists x | now exists s].
Qed.

Lemma user_attr_shape (f : User -> attr) (u : user_value) :
  user_attr f u = PNone \/ is_str (user_attr f u).
Proof.
  destruct u as [|o]; cbn; [now left|].
  destruct (f o) as [|[|s]]; cbn; [now left | now left | right; now exists s].
Qed.

(** The handle of a live row: empty, or "@" and the reported username. *)
Lemma normalise_fields (t : Tweet) (r : Row) :
  normalise t = Return r ->
  is_str (location r)
  /\ (handle r = PStr ""
      \/ exists usr u, user t = Some (UserObj usr)
                       /\ username usr = Attr (PStr u) /\ u <> ""
                       /\ handle r = PStr (String "@" u)).
Proof.
  unfold normalise. destruct (user t) as [u|] eqn:Hu; [|discriminate].
  intros [= <-]. cbn [location handle]. split.
  - apply py_or_str. right. apply py_or_str. apply user_attr_shape.
  - destruct u as [|usr]; cbn; [now left|].
    destruct (username usr) as [|[|s]] eqn:Hs; cbn; [now left | now left |].
    unfold py_or. cbn. destruct (String.eqb_spec s "") as [->|Hne]; cbn.
    + now left.
    + rewrite (proj2 (String.eqb_neq s "") Hne). cbn.
      right. exists usr, s. auto.
Qed.

Lemma names_at_In (i : Z) : In (names_at i) names.
Proof.
  unfold names_at. apply nth_In.
  change (Z.of_nat (List.length names)) with 8%Z.
  change (List.length names) with 8%nat.
  pose proof (Z.mod_pos_bound i 8 ltac:(lia)). lia.
Qed.

Lemma names_handles_clean :
  Forall (fun tpl : template =>
            let '(_, hdl, _, _) := tpl in
            begins_with_at hdl = false /\ hdl <> "") names.
Proof. repeat constructor; discriminate. Qed.

Lemma sample_row_fields (i : Z) :
  is_str (location (sample_row i))
  /\ exists hdl, handle (sample_row i) = PStr (String "@" hdl)
                 /\ begins_with_at hdl = false /\ hdl <> "".
Proof.
  pose proof (names_at_In i) as Hin.
  pose proof (proj1 (List.Forall_forall _ _) names_handles_clean _ Hin) as Hc.
  unfold sample_row. destruct (names_at i) as [[[name hdl] txt] loc].
  cbn [location handle]. split; [now exists loc|].
  exists hdl. split; [reflexivity | exact Hc].
Qed.

Lemma generate_sample_data_handle (n : Z) (r : Row) :
  In r (rows (generate_sample_data n)) ->
  is_str (location r)
  /\ exists hdl, handle r = PStr (String "@" hdl)
                 /\ begins_with_at hdl = false /\ hdl <> "".
Proof.
  rewrite rows_generate_sample_data. intros Hin.
  apply in_map_iff in Hin as (k & <- & _). apply sample_row_fields.
Qed.

Lemma generate_sample_data_fields (n : Z) (r : Row) :
  In r (rows (generate_sample_data n)) ->
  is_str (location r) /\ handle_ok (handle r).
Proof.
  intros Hin.
  destruct (generate_sample_data_handle n r Hin) as (Hloc & hdl & Hh & Hc & _).
  split; [exact Hloc|]. right. now exists hdl.
Qed.

(** Where the rows of a returned frame come from. *)
Lemma scrape_tweets_rows (imp : import_result) (q : string) (limit : Z)
    (d : DataFrame) (ns : list notice) (r : Row) :
  scrape_tweets imp q limit = Return (d, ns) -> In r (rows d) ->
  In r (rows (generate_sample_data limit))
  \/ exists m j t, imp = Imported m /\ get_items m q j = Item t
                   /\ normalise t = Return r.
Proof.
  rewrite scrape_tweets_unfold. intros Hs Hin. destruct imp as [m|e].
  - destruct (collect _ _ _ _) as [[|r0 rs]|e] eqn:Hc.
    + injection Hs as <- _. now left.
    + injection Hs as <- _. right.
      apply collect_rows in Hc as (new & Hnew & _ & Hall).
      cbn [app] in Hnew. subst new. cbn [rows] in Hin.
      destruct (proj1 (List.Forall_forall _ _) Hall r Hin) as (j & t & Hj & Ht).
      exists m, j, t. auto.
    + destruct (exc_is_Exception e); [|discriminate].
      injection Hs as <- _. now left.
  - destruct (exc_is_Exception e); [|discriminate].
    injection Hs as <- _. now left.
Qed.

(** C7, as the code has it: in every frame produced by
    [generate_sample_data] or returned by [scrape_tweets] the location of a
    row is a string; the handle of a sample row is "@" followed by a catalog
    handle, which does not begin with "@"; the handle of a returned row is
    empty or "@" followed by non-empty text, and it begins with exactly one
    "@" whenever no username reported by the source begins with "@". *)
Theorem record_fields :
  (forall n r, In r (rows (generate_sample_data n)) ->
     is_str (location r) /\ handle_ok (handle r))
  /\ (forall imp q limit d ns r,
        scrape_tweets imp q limit = Return (d, ns) -> In r (rows d) ->
        is_str (location r)
        /\ (handle r = PStr ""
            \/ exists u, u <> "" /\ handle r = PStr (String "@" u))
        /\ ((forall m j t, imp = Imported m -> get_items m q j = Item t ->
               clean_username t) ->
            handle_ok (handle r))).
Proof.
  split; [exact generate_sample_data_fields|].
  intros imp q limit d ns r Hs Hin.
  destruct (scrape_tweets_rows _ _ _ _ _ _ Hs Hin)
    as [Hsam|(m & j & t & -> & Hj & Ht)].
  - destruct (generate_sample_data_handle _ _ Hsam)
      as (Hloc & hdl & Hh & Hc & Hne).
    split; [exact Hloc|]. split.
    + right. now exists hdl.
    + intros _. right. now exists hdl.
  - destruct (normalise_fields t r Ht) as [Hloc Hh].
    split; [exact Hloc|]. split.
    + destruct Hh as [->|(usr & u & _ & _ & Hne & ->)]; [now left|].
      right. now exists u.
    + intros Hclean.
      destruct Hh as [->|(usr & u & Hu & Hn & Hne & ->)]; [now left|].
      right. exists u. split; [reflexivity|].
      exact (Hclean m j t eq_refl Hj usr u Hu Hn).
Qed.

Lemma record_fields_witness :
  handle_ok (PStr "@bob").
Proof.
  refine (proj2 (proj2 (proj2 record_fields
            (Imported (module_of [plain_tweet "bob" "Hiring"] StopIteration))
            "jobs" 10%Z
            (mkDF record_columns
               [mkRow (PStr "bob") (PStr "@bob") (PStr "Hiring")
                      (PStr "https://twitter.com/bob") (PStr "")])
            []
            (mkRow (PStr "bob") (PStr "@bob") (PStr "Hiring")
                   (PStr "https://twitter.com/bob") (PStr ""))
            eq_refl (or_introl eq_refl))) _).
  intros m j t [= <-] Hj. destruct j as [|[|j]]; try discriminate Hj.
  injection Hj as <-. intros usr s [= <-] [= <-]. reflexivity.
Defined.

(** C7 as stated fails on a live row: when the source reports a username
    that itself begins with "@", the handle begins with "@" twice. *)
Lemma handle_begins_with_two_ats :
  scrape_tweets
    (Imported (module_of [plain_tweet "@bob" "Hiring"] StopIteration)) "jobs" 10
  = Return (mkDF record_columns
              [mkRow (PStr "@bob") (PStr "@@bob") (PStr "Hiring")
                     (PStr "https://twitter.com/@bob") (PStr "")], [])
  /\ ~ handle_ok (PStr "@@bob")
  /\ ~ (forall imp q limit d ns r,
          scrape_tweets imp q limit = Return (d, ns) -> In r (rows d) ->
          is_str (location r) /\ handle_ok (handle r)).
Proof.
  assert (Hbad : ~ handle_ok (PStr "@@bob")).
  { intros [H|(u & H & Hu)]; [discriminate|].
    injection H as <-. discriminate Hu. }
  split; [reflexivity|]. split; [exact Hbad|].
  intros H.
  apply Hbad.
  exact (proj2 (H (Imported (module_of [plain_tweet "@bob" "Hiring"] StopIteration))
                  "jobs" 10%Z _ _
                  (mkRow (PStr "@bob") (PStr "@@bob") (PStr "Hiring")
                         (PStr "https://twitter.com/@bob") (PStr ""))
                  eq_refl (or_introl eq_refl))).
Qed.

(** ** Region filter *)

Section StringFacts.

Lemma prefix_spec (a s : string) :
  String.prefix a s = true <-> exists b, s = (a ++ b)%string.
Proof.
  revert s. induction a as [|c a IH]; intros s.
  - split; [intros _; now exists s | intros _; now destruct s].
  - destruct s as [|c' s]; simpl.
    + split; [discriminate | intros [b Hb]; discriminate].
    + destruct (ascii_dec c c') as [->|Hne].
      * rewrite IH. split; intros [b Hb]; exists b; [now rewrite Hb | now injection Hb].
      * split; [discriminate | intros [b Hb]; injection Hb as Hc _; congruence].
Qed.

(** [sub in s] is true exactly when [sub] occurs in [s]. *)
Lemma contains_spec (sub s : string) :
  Py.contains sub s = true <-> substring_of sub s.
Proof.
  unfold substring_of. induction s as [|c s IH].
  - cbn [Py.contains]. rewrite orb_false_r, prefix_spec. split.
    + intros [b Hb]. now exists "", b.
    + intros (a & b & H). destruct a; [now exists b | discriminate].
  - cbn [Py.contains]. rewrite orb_true_iff, prefix_spec, IH. split.
    + intros [[b Hb]|(a & b & H)].
      * now exists "", b.
      * exists (String c a), b. cbn. now rewrite H.
    + intros (a & b & H). destruct a as [|c' a].
      * left. now exists b.
      * right. injection H as _ H. now exists a, b.
Qed.

Lemma contains_empty (sub : string) :
  sub <> "" -> Py.contains sub "" = false.
Proof. destruct sub; [congruence | reflexivity]. Qed.

Lemma lower_nonempty (s : string) : s <> "" -> Py.lower s <> "".
Proof. destruct s; [congruence | discriminate]. Qed.

Lemma isspace_comma (c : ascii) : Py.isspace c = true -> Ascii.eqb c "," = false.
Proof.
  destruct (Ascii.eqb_spec c ",") as [->|]; [discriminate | reflexivity].
Qed.

Lemma rstrip_nonspace (c : ascii) (r : string) :
  Py.isspace c = false -> Py.rstrip (String c r) <> "".
Proof.
  intros Hc. cbn [Py.rstrip]. rewrite Hc. now destruct (Py.rstrip r).
Qed.

(** A string strips to nothing only when all of it is whitespace; it then
    holds no comma, and [split] returns it whole. *)
Lemma strip_empty_split (s : string) :
  Py.strip s = "" -> Py.split "," s = [s].
Proof.
  unfold Py.strip. induction s as [|c s IH]; [reflexivity|].
  cbn [Py.lstrip Py.split]. destruct (Py.isspace c) eqn:Hc.
  - intros H. rewrite (isspace_comma c Hc), (IH H). reflexivity.
  - intros H. now apply rstrip_nonspace in H.
Qed.

End StringFacts.

Lemma select_map_filter {A : Type} (f : A -> bool) (l : list A) :
  select (map f l) l = List.filter f l.
Proof.
  induction l as [|x l IH]; [reflexivity|].
  cbn. rewrite IH. reflexivity.
Qed.

Lemma rows_getitem_mask (d : DataFrame) (f : Row -> bool) :
  rows (getitem_mask d (map f (rows d))) = List.filter f (rows d).
Proof.
  unfold getitem_mask. destruct (rows d) as [|r rs] eqn:Hr; [reflexivity|].
  cbn [map rows]. rewrite <- Hr.
  change (f r :: map f rs) with (map f (r :: rs)). rewrite <- Hr.
  apply select_map_filter.
Qed.

Lemma columns_getitem_mask (d : DataFrame) (f : Row -> bool) :
  rows d <> [] -> columns (getitem_mask d (map f (rows d))) = columns d.
Proof.
  unfold getitem_mask. destruct (rows d); [congruence | reflexivity].
Qed.

Lemma regions_tokens (s : string) : regions s = tokens s.
Proof.
  unfold regions, tokens. induction (Py.split "," s) as [|r l IH]; [reflexivity|].
  cbn. destruct (negb (String.eqb (Py.strip r) "")); cbn; now rewrite IH.
Qed.

Lemma regions_nonempty (s tok : string) : In tok (regions s) -> tok <> "".
Proof.
  unfold regions. intros H. apply in_map_iff in H as (r & <- & Hr).
  apply filter_In in Hr as [_ Hr]. apply lower_nonempty.
  apply negb_true_iff in Hr. now apply String.eqb_neq.
Qed.

Lemma regions_blank (s : string) : Py.strip s = "" -> regions s = [].
Proof.
  intros H. unfold regions. rewrite (strip_empty_split s H). cbn.
  now rewrite H.
Qed.

Lemma getitem_col_location (d : DataFrame) :
  In "location" (columns d) ->
  getitem_col d "location" = Return (map location (rows d)).
Proof.
  intros Hin. unfold getitem_col.
  replace (existsb (String.eqb "location") (columns d)) with true; [reflexivity|].
  symmetry. apply existsb_exists. exists "location". split; [exact Hin | reflexivity].
Qed.

Lemma matches_spec (regs : list string) (loc : string) :
  matches regs (PStr loc) = true
  <-> exists tok, In tok regs /\ substring_of tok (Py.lower loc).
Proof.
  unfold matches.
  assert (Hf : format (py_or (PStr loc) (PStr "")) = loc).
  { unfold py_or. cbn. now destruct (String.eqb_spec loc "") as [->|]. }
  rewrite Hf, existsb_exists.
  split; intros (tok & Hin & H); exists tok; split; auto; now apply contains_spec.
Qed.

Lemma matches_no_location (regs : list string) (v : pyval) :
  (forall tok, In tok regs -> tok <> "") ->
  v = PNone \/ v = PStr "" -> matches regs v = false.
Proof.
  intros Hne Hv. unfold matches.
  assert (Hf : Py.lower (format (py_or v (PStr ""))) = "")
    by (destruct Hv as [->| ->]; reflexivity).
  rewrite Hf. apply not_true_is_false. intros H.
  apply existsb_exists in H as (tok & Hin & H).
  rewrite (contains_empty tok (Hne tok Hin)) in H. discriminate.
Qed.

(** C3: the tokens are the pieces of the filter string between commas,
    trimmed, the empty ones dropped, lower-cased.  With no token (so for an
    empty or whitespace-only filter string) the frame is returned as it is.
    Otherwise the result holds exactly the rows, in their order, whose
    lower-cased location has a token as a substring (under the same columns
    when the frame has a row); a row whose location is empty is not kept.
    The filter "india, remote" keeps the first two of the locations
    "Bengaluru, India", "Remote", "San Francisco, CA" and "". *)
Theorem apply_region_filter_spec (d : DataFrame) (s : string) :
  In "location" (columns d) ->
  regions s = tokens s
  /\ (tokens s = [] -> apply_region_filter d s = Return d)
  /\ (Py.strip s = "" -> tokens s = [] /\ apply_region_filter d s = Return d)
  /\ (tokens s <> [] ->
      exists d',
        apply_region_filter d s = Return d'
        /\ (rows d <> [] -> columns d' = columns d)
        /\ rows d' = List.filter (fun r => matches (tokens s) (location r)) (rows d)
        /\ (forall r loc, location r = PStr loc ->
              (matches (tokens s) (location r) = true
               <-> exists tok, In tok (tokens s)
                               /\ substring_of tok (Py.lower loc)))
        /\ (forall r, In r (rows d') ->
              location r <> PStr "" /\ location r <> PNone))
  /\ (apply_region_filter example_locations "india, remote"
      = Return (mkDF record_columns (firstn 2 (rows example_locations)))).
Proof.
  intros Hcol. rewrite <- regions_tokens.
  split; [reflexivity|]. split; [|split; [|split]].
  - intros Hnil. unfold apply_region_filter. rewrite Hnil.
    now destruct (String.eqb _ _).
  - intros Hblank. split; [now apply regions_blank|].
    unfold apply_region_filter. now rewrite Hblank.
  - intros Hne.
    exists (getitem_mask d (map (fun r => matches (regions s) (location r)) (rows d))).
    split; [|split; [apply columns_getitem_mask|split;
                     [apply rows_getitem_mask|split]]].
    + unfold apply_region_filter.
      destruct (String.eqb_spec (Py.strip s) "") as [Hblank|_].
      { now apply regions_blank in Hblank. }
      destruct (regions s) as [|tok toks] eqn:Hregs; [congruence|].
      rewrite (getitem_col_location d Hcol). cbn [mbind outcome_bind].
      now rewrite map_map.
    + intros r loc ->. apply matches_spec.
    + rewrite rows_getitem_mask. intros r Hin. apply filter_In in Hin as [_ Hm].
      split; intros Hloc;
        rewrite (matches_no_location (regions s) (location r)
                   (regions_nonempty s)) in Hm; auto; discriminate.
  - reflexivity.
Qed.

Lemma apply_region_filter_spec_witness :
  apply_region_filter (generate_sample_data 3) " , " = Return (generate_sample_data 3).
Proof.
  refine (proj1 (proj2 (apply_region_filter_spec (generate_sample_data 3) " , " _)) _).
  - vm_compute. do 4 right. left. reflexivity.
  - reflexivity.
Defined.

(** ** CSV export *)

Lemma to_csv_record_columns (d : DataFrame) :
  columns d = record_columns ->
  to_csv d = (csv_header ++ String LF (String.concat "" (map csv_record (rows d))))%string.
Proof.
  intros Hc. unfold to_csv. rewrite Hc. reflexivity.
Qed.

Lemma splitlines_line (h rest : string) :
  Py.contains (String LF "") h = false ->
  splitlines (h ++ String LF rest) = h :: splitlines rest.
Proof.
  induction h as [|c h IH]; intros Hno.
  - reflexivity.
  - cbn [Py.contains] in Hno. apply orb_false_iff in Hno as [Hc Hno].
    simpl. rewrite (IH Hno).
    destruct (Ascii.eqb_spec c LF) as [->|_]; [|reflexivity].
    simpl in Hc. destruct h; discriminate Hc.
Qed.

Lemma apply_region_filter_columns (d d' : DataFrame) (s : string) :
  rows d <> [] -> apply_region_filter d s = Return d' -> columns d' = columns d.
Proof.
  intros Hrows. unfold apply_region_filter.
  destruct (String.eqb _ _); [congruence|].
  destruct (regions s) as [|tok toks]; [congruence|].
  unfold getitem_col. destruct (existsb _ _); cbn; [|discriminate].
  intros [= <-]. rewrite map_map.
  now apply (columns_getitem_mask d (fun r => matches (tok :: toks) (cell "location" r))).
Qed.

Lemma apply_region_filter_returns (d : DataFrame) (s : string) :
  In "location" (columns d) -> exists d', apply_region_filter d s = Return d'.
Proof.
  intros Hcol. unfold apply_region_filter. destruct (String.eqb _ _); [eauto|].
  destruct (regions s) as [|tok toks]; [eauto|].
  rewrite (getitem_col_location d Hcol). cbn. eauto.
Qed.

Lemma rows_generate_sample_data_nonempty (n : Z) :
  (0 < n)%Z -> rows (generate_sample_data n) <> [].
Proof.
  intros Hn Hnil. apply (f_equal (@List.length Row)) in Hnil.
  fold (df_len (generate_sample_data n)) in Hnil.
  rewrite length_generate_sample_data in Hnil. cbn in Hnil. lia.
Qed.

Lemma scrape_tweets_columns (imp : import_result) (q : string) (limit : Z)
    (d : DataFrame) (ns : list notice) :
  (0 < limit)%Z -> scrape_tweets imp q limit = Return (d, ns) ->
  columns d = record_columns /\ rows d <> [].
Proof.
  intros Hpos. rewrite scrape_tweets_unfold.
  pose proof (columns_generate_sample_data limit Hpos) as Hs.
  pose proof (rows_generate_sample_data_nonempty limit Hpos) as Hr.
  destruct imp as [m|e].
  - destruct (collect _ _ _ _) as [[|r rs]|e].
    + now intros [= <- _].
    + now intros [= <- _].
    + destruct (exc_is_Exception e); [now intros [= <- _] | discriminate].
  - destruct (exc_is_Exception e); [now intros [= <- _] | discriminate].
Qed.

Lemma run_columns (imp : import_result) (inp : inputs) (p : page) :
  (0 < max_tweets inp)%Z -> run imp inp = Return p ->
  columns (df_filtered p) = record_columns /\ csv p = to_csv (df_filtered p).
Proof.
  intros Hpos. unfold run.
  destruct (live inp).
  - destruct (scrape_tweets _ _ _) as [[d ns]|e] eqn:Hs; cbn; [|discriminate].
    destruct (apply_region_filter d (region inp)) as [d'|e] eqn:Hf; cbn;
      [|discriminate].
    intros [= <-]. cbn. split; [|reflexivity].
    destruct (scrape_tweets_columns _ _ _ _ _ Hpos Hs) as [Hc Hr].
    now rewrite (apply_region_filter_columns _ _ _ Hr Hf).
  - cbn.
    destruct (apply_region_filter _ (region inp)) as [d'|e] eqn:Hf; cbn;
      [|discriminate].
    intros [= <-]. cbn. split; [|reflexivity].
    rewrite (apply_region_filter_columns _ _ _
               (rows_generate_sample_data_nonempty _ Hpos) Hf).
    now apply columns_generate_sample_data.
Qed.

(** C6: for a slider value (10 to 500), the exported CSV of a run is the
    header record display_name,handle,text,url,location as its first line,
    followed by one record of five fields per row of the filtered frame, in
    order, with no index field; a run with live mode off always reaches the
    export; with live mode off, 40 tweets and an empty region filter the
    CSV has 41 lines and the summary shows 40 of 40. *)
Theorem csv_export (imp : import_result) (inp : inputs) :
  (10 <= max_tweets inp <= 500)%Z ->
  (forall p, run imp inp = Return p ->
     csv p = (csv_header
              ++ String LF (String.concat "" (map csv_record (rows (df_filtered p)))))%string
     /\ splitlines (csv p)
        = csv_header
          :: splitlines (String.concat "" (map csv_record (rows (df_filtered p)))))
  /\ (live inp = false -> exists p, run imp inp = Return p)
  /\ (forall k, exists p,
        run imp (sample_run_inputs k) = Return p
        /\ List.length (splitlines (csv p)) = 41%nat
        /\ List.length (rows (df_filtered p)) = 40%nat
        /\ shown p = (40%nat, 40%nat)).
Proof.
  intros Hmax. split; [|split].
  - intros p Hrun.
    destruct (run_columns imp inp p ltac:(lia) Hrun) as [Hc ->].
    rewrite (to_csv_record_columns _ Hc). split; [reflexivity|].
    now apply splitlines_line.
  - intros Hlive. unfold run. rewrite Hlive. cbn.
    destruct (apply_region_filter_returns (generate_sample_data (max_tweets inp))
                (region inp)) as [d' Hd'].
    { rewrite columns_generate_sample_data by lia. cbn. tauto. }
    rewrite Hd'. cbn. eauto.
  - intros k. eexists. split; [reflexivity|]. cbn [csv shown df_filtered].
    split; [vm_compute; reflexivity|]. split; vm_compute; reflexivity.
Qed.

Lemma csv_export_witness :
  exists p, run (ImportRaises ModuleNotFoundError) (sample_run_inputs "designer")
            = Return p
            /\ List.length (splitlines (csv p)) = 41%nat.
Proof.
  destruct (proj2 (proj2 (csv_export (ImportRaises ModuleNotFoundError)
                            (sample_run_inputs "designer") ltac:(cbn; lia)))
              "designer") as (p & Hp & Hl & _).
  exists p. split; [exact Hp | exact Hl].
Defined.

(** C10: [generate_sample_data 0] (and any count below 1) is a frame with no
    rows and no columns; its CSV is a single empty line, which is not the
    header display_name,handle,text,url,location; for a count of at least 1
    the frame has the five columns and its CSV begins with the header
    line. *)
Theorem generate_sample_data_zero_columns :
  generate_sample_data 0 = mkDF [] []
  /\ (forall n, (n <= 0)%Z -> generate_sample_data n = mkDF [] [])
  /\ to_csv (generate_sample_data 0) = String LF ""
  /\ splitlines (to_csv (generate_sample_data 0)) = [""]
  /\ String.prefix csv_header (to_csv (generate_sample_data 0)) = false
  /\ (forall n, (1 <= n)%Z ->
        columns (generate_sample_data n) = record_columns
        /\ rows (generate_sample_data n) <> []
        /\ splitlines (to_csv (generate_sample_data n))
           = csv_header
             :: splitlines (String.concat ""
                              (map csv_record (rows (generate_sample_data n))))).
Proof.
  split; [reflexivity|]. split; [|split; [reflexivity|split; [reflexivity|split;
    [reflexivity|]]]].
  - intros n Hn. unfold generate_sample_data.
    replace (Z.to_nat n) with 0%nat by lia. reflexivity.
  - intros n Hn. pose proof (columns_generate_sample_data n ltac:(lia)) as Hc.
    split; [exact Hc|]. split.
    + apply rows_generate_sample_data_nonempty. lia.
    + rewrite (to_csv_record_columns _ Hc). now apply splitlines_line.
Qed.

Lemma generate_sample_data_zero_columns_witness :
  columns (generate_sample_data 1) = record_columns.
Proof.
  exact (proj1 (proj2 (proj2 (proj2 (proj2 (proj2
           generate_sample_data_zero_columns)))) 1%Z ltac:(lia))).
Defined.

(** ** Aggregator *)

Section Ordering.

Lemma str_compare_eq (a b : string) : String_as_OT.compare a b = Eq <-> a = b.
Proof.
  destruct (String_as_OT.compare_spec a b) as [H|H|H]; split; try easy.
  - intros ->. now apply (StrictOrder_Irreflexive b) in H.
  - intros ->. now apply (StrictOrder_Irreflexive b) in H.
Qed.

Lemma str_compare_lt (a b : string) :
  String_as_OT.compare a b = Lt <-> Py.str_lt a b.
Proof. reflexivity. Qed.

Lemma str_compare_gt (a b : string) :
  String_as_OT.compare a b = Gt -> Py.str_lt b a.
Proof.
  destruct (String_as_OT.compare_spec a b) as [H|H|H]; easy.
Qed.

Lemma str_lt_trans (a b c : string) :
  Py.str_lt a b -> Py.str_lt b c -> Py.str_lt a c.
Proof. apply (StrictOrder_Transitive (R := String_as_OT.lt)). Qed.

Lemma str_lt_irrefl (a : string) : ~ Py.str_lt a a.
Proof. apply (StrictOrder_Irreflexive (R := String_as_OT.lt)). Qed.

Lemma sorted_snoc {A : Type} (R : A -> A -> Prop) (l : list A) (x : A) :
  StronglySorted R l -> Forall (fun y => R y x) l ->
  StronglySorted R (l ++ [x]).
Proof.
  induction 1 as [|y l Hs IH Hy]; intros Hall; cbn.
  - repeat constructor.
  - inversion Hall as [|? ? Hyx Hall']; subst. constructor.
    + now apply IH.
    + apply List.Forall_app. split; [exact Hy | now repeat constructor].
Qed.

Lemma sorted_rev {A : Type} (R : A -> A -> Prop) (l : list A) :
  StronglySorted R l -> StronglySorted (fun x y => R y x) (rev l).
Proof.
  induction 1 as [|y l Hs IH Hy]; cbn; [constructor|].
  apply sorted_snoc; [exact IH|].
  apply List.Forall_forall. intros z Hz. apply in_rev in Hz.
  exact (proj1 (List.Forall_forall _ _) Hy z Hz).
Qed.

End Ordering.

Section Grouping.

Lemma total_bump (k l : string) (g : counts) :
  total (bump k g) l = (total g l + if String.eqb k l then 1 else 0)%nat.
Proof.
  induction g as [|[k' c] g IH]; cbn.
  - lia.
  - destruct (String_as_OT.compare k k') eqn:Hc; cbn.
    + apply str_compare_eq in Hc as ->. destruct (String.eqb k' l); lia.
    + destruct (String.eqb k l), (String.eqb k' l); lia.
    + rewrite IH. lia.
Qed.

Lemma bump_keys (k : string) (g : counts) (x : string * nat) :
  In x (bump k g) -> fst x = k \/ exists y, In y g /\ fst y = fst x.
Proof.
  induction g as [|[k' c] g IH]; cbn.
  - intros [<-|[]]. now left.
  - destruct (String_as_OT.compare k k') eqn:Hc; cbn.
    + intros [<-|Hin]; right; [exists (k', c) | exists x]; auto.
    + intros [<-|[<-|Hin]]; [now left | right; exists (k', c) | right; exists x];
        auto.
    + intros [<-|Hin]; [right; exists (k', c); auto|].
      destruct (IH Hin) as [?|(y & Hy & Hf)]; [now left|].
      right. exists y. auto.
Qed.

Lemma bump_sorted (k : string) (g : counts) :
  StronglySorted by_key g -> StronglySorted by_key (bump k g).
Proof.
  induction 1 as [|[k' c] g Hs IH Hall]; cbn.
  - repeat constructor.
  - destruct (String_as_OT.compare k k') eqn:Hc.
    + constructor; [exact Hs | exact Hall].
    + constructor; [now constructor|].
      apply str_compare_lt in Hc. constructor; [exact Hc|].
      eapply List.Forall_impl; [|exact Hall].
      intros y Hy. unfold by_key in *. cbn in *. eapply str_lt_trans; eauto.
    + constructor; [exact IH|].
      apply str_compare_gt in Hc.
      apply List.Forall_forall. intros x Hx.
      destruct (bump_keys _ _ _ Hx) as [Hk|(y & Hy & Hf)].
      * unfold by_key. cbn. now rewrite Hk.
      * unfold by_key. rewrite <- Hf.
        exact (proj1 (List.Forall_forall _ _) Hall y Hy).
Qed.

Lemma bump_positive (k : string) (g : counts) :
  Forall (fun x => 0 < snd x)%nat g -> Forall (fun x => 0 < snd x)%nat (bump k g).
Proof.
  induction 1 as [|[k' c] g Hc Hall IH]; cbn.
  - repeat constructor.
  - destruct (String_as_OT.compare k k'); repeat constructor; cbn in *;
      auto; lia.
Qed.

(** The invariant of the grouping fold. *)
Lemma fold_bump (keys : list string) (g : counts) :
  StronglySorted by_key g -> Forall (fun x => 0 < snd x)%nat g ->
  let g' := fold_left (fun g k => bump k g) keys g in
  StronglySorted by_key g'
  /\ Forall (fun x => 0 < snd x)%nat g'
  /\ forall l, total g' l = (total g l + count_occ string_dec keys l)%nat.
Proof.
  revert g. induction keys as [|k keys IH]; intros g Hs Hp; cbn.
  - repeat split; auto.
  - destruct (IH (bump k g) (bump_sorted k g Hs) (bump_positive k g Hp))
      as (Hs' & Hp' & Ht).
    repeat split; auto. intros l. rewrite Ht, total_bump.
    destruct (string_dec k l) as [->|Hne].
    + rewrite String.eqb_refl. lia.
    + rewrite (proj2 (String.eqb_neq k l) Hne). lia.
Qed.

Lemma total_absent (g : counts) (l : string) :
  (forall x, In x g -> fst x <> l) -> total g l = 0%nat.
Proof.
  induction g as [|[k c] g IH]; intros H; cbn; [reflexivity|].
  rewrite IH by (intros x Hx; apply H; now right).
  pose proof (H (k, c) (or_introl eq_refl)) as Hk. cbn in Hk.
  now rewrite (proj2 (String.eqb_neq k l) Hk).
Qed.

(** Under distinct keys, an entry is the total of its key. *)
Lemma total_entry (g : counts) (l : string) (c : nat) :
  List.NoDup (map fst g) -> In (l, c) g -> total g l = c.
Proof.
  induction g as [|[k c'] g IH]; cbn; [easy|].
  intros Hnd [Heq|Hin]; inversion Hnd as [|? ? Hk Hnd']; subst.
  - injection Heq as -> ->. rewrite String.eqb_refl.
    rewrite total_absent; [lia|].
    intros x Hx Hf. apply Hk. rewrite <- Hf. now apply in_map.
  - rewrite (IH Hnd' Hin).
    destruct (String.eqb_spec k l) as [->|_]; [|reflexivity].
    exfalso. apply Hk. change l with (fst (l, c)). now apply in_map.
Qed.

Lemma total_positive_entry (g : counts) (l : string) :
  (0 < total g l)%nat -> exists c, In (l, c) g.
Proof.
  induction g as [|[k c'] g IH]; cbn; [lia|].
  destruct (String.eqb_spec k l) as [->|_].
  - intros _. exists c'. now left.
  - intros H. destruct (IH H) as [c Hc]. exists c. now right.
Qed.

Lemma by_key_NoDup (g : counts) :
  StronglySorted by_key g -> List.NoDup (map fst g).
Proof.
  induction 1 as [|x g Hs IH Hall]; cbn; constructor; [|exact IH].
  intros Hin. apply in_map_iff in Hin as (y & Hf & Hy).
  pose proof (proj1 (List.Forall_forall _ _) Hall y Hy) as Hlt.
  unfold by_key in Hlt. rewrite Hf in Hlt. now apply str_lt_irrefl in Hlt.
Qed.

End Grouping.

Section Ranking.

Lemma insert_by_size_perm (x : string * nat) (l : counts) :
  Permutation (insert_by_size x l) (x :: l).
Proof.
  induction l as [|y l IH]; cbn; [reflexivity|].
  destruct (snd x <=? snd y)%nat; [reflexivity|].
  rewrite IH. apply perm_swap.
Qed.

Lemma stable_argsort_perm (l : counts) : Permutation (stable_argsort l) l.
Proof.
  induction l as [|x l IH]; cbn; [reflexivity|].
  rewrite insert_by_size_perm. now constructor.
Qed.

Lemma insert_by_size_sorted (x : string * nat) (l : counts) :
  StronglySorted (fun x y => (snd x <= snd y)%nat) l ->
  StronglySorted (fun x y => (snd x <= snd y)%nat) (insert_by_size x l).
Proof.
  induction 1 as [|y l Hs IH Hy]; cbn.
  - repeat constructor.
  - destruct (Nat.leb_spec (snd x) (snd y)) as [Hle|Hgt].
    + constructor; [now constructor|]. constructor; [exact Hle|].
      eapply List.Forall_impl; [|exact Hy]. cbn. intros z Hz. lia.
    + constructor; [exact IH|].
      apply List.Forall_forall. intros z Hz.
      apply (Permutation_in _ (insert_by_size_perm x l)) in Hz.
      destruct Hz as [<-|Hz]; [lia|].
      exact (proj1 (List.Forall_forall _ _) Hy z Hz).
Qed.

(** The insertion sort is a sort. *)
Lemma stable_argsort_sorts : sorts stable_argsort.
Proof.
  intros l. split; [apply stable_argsort_perm|].
  induction l as [|x l IH]; cbn; [constructor|].
  now apply insert_by_size_sorted.
Qed.

Lemma sort_values_desc_perm (kind : counts -> counts) (g : counts) :
  sorts kind -> Permutation (sort_values_desc kind g) g.
Proof.
  intros Hk. unfold sort_values_desc.
  rewrite <- Permutation_rev, (proj1 (Hk (rev g))).
  symmetry. apply Permutation_rev.
Qed.

(** Whatever the kind of sort, larger sizes come first. *)
Lemma sort_values_desc_by_size (kind : counts -> counts) (g : counts) :
  sorts kind -> StronglySorted by_size_desc (sort_values_desc kind g).
Proof.
  intros Hk. unfold sort_values_desc.
  apply (sorted_rev (fun x y => (snd x <= snd y)%nat)).
  apply (proj2 (Hk (rev g))).
Qed.

(** Inserting a group whose key is above every key of the list: it goes in
    front of the groups of its own size, and the list stays [rising]. *)
Lemma insert_by_size_rising (x : string * nat) (l : counts) :
  StronglySorted rising l ->
  Forall (fun y => Py.str_lt (fst y) (fst x)) l ->
  StronglySorted rising (insert_by_size x l).
Proof.
  induction 1 as [|y l Hs IH Hy]; intros Hkeys; cbn.
  - repeat constructor.
  - inversion Hkeys as [|? ? Hyx Hkeys']; subst.
    destruct (Nat.leb_spec (snd x) (snd y)) as [Hle|Hgt].
    + constructor; [now constructor|].
      assert (Hxy : rising x y).
      { unfold rising. destruct (Nat.eq_dec (snd x) (snd y)); [right|left]; auto; lia. }
      constructor; [exact Hxy|].
      apply List.Forall_forall. intros z Hz.
      pose proof (proj1 (List.Forall_forall _ _) Hy z Hz) as Hyz.
      pose proof (proj1 (List.Forall_forall _ _) Hkeys' z Hz) as Hzx.
      unfold rising in *. cbn in Hzx.
      destruct (Nat.eq_dec (snd x) (snd z)); [right|left]; auto.
      destruct Hyz as [?|[? _]]; lia.
    + constructor; [now apply IH|].
      apply List.Forall_forall. intros z Hz.
      apply (Permutation_in _ (insert_by_size_perm x l)) in Hz.
      destruct Hz as [<-|Hz].
      * left. lia.
      * exact (proj1 (List.Forall_forall _ _) Hy z Hz).
Qed.

Lemma stable_argsort_rising (l : counts) :
  StronglySorted (fun x y => by_key y x) l ->
  StronglySorted rising (stable_argsort l).
Proof.
  induction 1 as [|x l Hs IH Hx]; cbn; [constructor|].
  apply insert_by_size_rising; [exact IH|].
  apply List.Forall_forall. intros y Hy.
  apply (Permutation_in _ (stable_argsort_perm l)) in Hy.
  exact (proj1 (List.Forall_forall _ _) Hx y Hy).
Qed.

(** Under the stable sort, groups that come in ascending key order leave
    ranked: larger sizes first, equal sizes in ascending key order. *)
Lemma sort_values_desc_ranked (g : counts) :
  StronglySorted by_key g ->
  StronglySorted ranked (sort_values_desc stable_argsort g).
Proof.
  intros Hs. unfold sort_values_desc.
  apply (sorted_rev rising). apply stable_argsort_rising.
  now apply (sorted_rev by_key).
Qed.

End Ranking.

Lemma location_zip_with_rows (rs : list Row) (col : list pyval) :
  List.length col = List.length rs ->
  map location (zip_with_rows rs col) = col.
Proof.
  revert col. induction rs as [|r rs IH]; intros [|v col] Hlen;
    try discriminate; [reflexivity|].
  cbn. f_equal. apply IH. now injection Hlen.
Qed.

(** The keys that are grouped are the labels of the rows. *)
Lemma assigned_keys (d : DataFrame) :
  group_keys
    (map location
       (rows (assign_location d
                (replace "" "Unknown" (fillna "" (map location (rows d)))))))
  = map label (rows d).
Proof.
  unfold assign_location. cbn [rows].
  rewrite location_zip_with_rows
    by (unfold replace, fillna; now rewrite !length_map).
  unfold group_keys, replace, fillna, label.
  induction (rows d) as [|r rs IH]; [reflexivity|].
  cbn [map flat_map]. rewrite IH.
  destruct (location r) as [|s]; [reflexivity|].
  now destruct (String.eqb s "").
Qed.

(** The groups that reach the sort: in ascending key order, one per label,
    with the number of rows of that label. *)
Lemma loc_counts_groups (kind : counts -> counts) (d : DataFrame) :
  In "location" (columns d) ->
  exists g : counts,
    loc_counts kind d = Return (firstn 15 (sort_values_desc kind g))
    /\ StronglySorted by_key g
    /\ (forall l c, In (l, c) g
                    <-> c = count_occ string_dec (map label (rows d)) l
                        /\ (0 < c)%nat).
Proof.
  intros Hcol. unfold loc_counts. rewrite (getitem_col_location d Hcol).
  cbn [mbind outcome_bind]. cbv zeta.
  unfold head, groupby_size. rewrite assigned_keys.
  set (keys := map label (rows d)).
  destruct (fold_bump keys [] ltac:(constructor) ltac:(constructor))
    as (Hs & Hp & Ht).
  set (g := fold_left (fun g k => bump k g) keys []) in *.
  cbn in Ht.
  pose proof (by_key_NoDup g Hs) as Hnd.
  exists g. split; [reflexivity|]. split; [exact Hs|].
  intros l c. split.
  - intros Hin. split.
    + rewrite <- Ht. symmetry. now apply total_entry.
    + exact (proj1 (List.Forall_forall _ _) Hp (l, c) Hin).
  - intros [-> Hpos]. rewrite <- Ht in Hpos |- *.
    destruct (total_positive_entry g l Hpos) as [c Hc].
    now rewrite (total_entry g l c Hnd Hc).
Qed.

(** C2, as the code has it: the aggregation replaces an empty or missing
    location by "Unknown", counts the rows of each location, takes the groups
    in ascending order of the location string (the grouping sorts its keys),
    sorts them by count, larger first, and keeps the first 15.  Whatever
    sort is used, the result has one entry per location, with its number of
    rows, counts descending; under a stable sort, groups of equal count stay
    in ascending location order, and on the locations "Mumbai", "Mumbai",
    "", "Pune" the result is ("Mumbai", 2), ("Pune", 1), ("Unknown", 1). *)
Theorem loc_counts_ranked (d : DataFrame) :
  In "location" (columns d) ->
  (forall kind, sorts kind ->
     exists full : counts,
       loc_counts kind d = Return (firstn 15 full)
       /\ (forall l c, In (l, c) full
                       <-> c = count_occ string_dec (map label (rows d)) l
                           /\ (0 < c)%nat)
       /\ List.NoDup (map fst full)
       /\ StronglySorted by_size_desc full)
  /\ (exists full : counts,
        loc_counts stable_argsort d = Return (firstn 15 full)
        /\ (forall l c, In (l, c) full
                        <-> c = count_occ string_dec (map label (rows d)) l
                            /\ (0 < c)%nat)
        /\ List.NoDup (map fst full)
        /\ StronglySorted ranked full)
  /\ loc_counts stable_argsort example_counts_input
     = Return [("Mumbai", 2%nat); ("Pune", 1%nat); ("Unknown", 1%nat)].
Proof.
  intros Hcol.
  assert (Hany : forall kind, sorts kind ->
    exists g, loc_counts kind d = Return (firstn 15 (sort_values_desc kind g))
      /\ StronglySorted by_key g
      /\ (forall l c, In (l, c) (sort_values_desc kind g)
                      <-> c = count_occ string_dec (map label (rows d)) l
                          /\ (0 < c)%nat)
      /\ List.NoDup (map fst (sort_values_desc kind g))).
  { intros kind Hk.
    destruct (loc_counts_groups kind d Hcol) as (g & Hg & Hs & Hin).
    exists g. split; [exact Hg|]. split; [exact Hs|]. split.
    - intros l c. rewrite <- Hin. split; apply Permutation_in.
      + now apply sort_values_desc_perm.
      + symmetry. now apply sort_values_desc_perm.
    - apply (Permutation_NoDup (l := map fst g)); [|now apply by_key_NoDup].
      apply Permutation_map. symmetry. now apply sort_values_desc_perm. }
  split; [|split; [|reflexivity]].
  - intros kind Hk. destruct (Hany kind Hk) as (g & Hg & _ & Hin & Hnd).
    exists (sort_values_desc kind g).
    split; [exact Hg|]. split; [exact Hin|]. split; [exact Hnd|].
    now apply sort_values_desc_by_size.
  - destruct (Hany stable_argsort stable_argsort_sorts)
      as (g & Hg & Hs & Hin & Hnd).
    exists (sort_values_desc stable_argsort g).
    split; [exact Hg|]. split; [exact Hin|]. split; [exact Hnd|].
    now apply sort_values_desc_ranked.
Qed.

Lemma loc_counts_ranked_witness :
  exists full : counts,
    loc_counts stable_argsort example_counts_input = Return (firstn 15 full)
    /\ StronglySorted by_size_desc full.
Proof.
  destruct (proj1 (loc_counts_ranked example_counts_input
                     ltac:(cbn; tauto))
              stable_argsort stable_argsort_sorts)
    as (full & Hfull & _ & _ & Hsorted).
  exists full. split; [exact Hfull | exact Hsorted].
Defined.

(** C2 as stated fails: groups of equal count do not come out in the order
    of first appearance; on the locations "Mumbai", "Mumbai", "", "Pune" the
    aggregation, under a stable sort, puts "Pune" before "Unknown". *)
Lemma loc_counts_not_first_seen :
  sorts stable_argsort
  /\ loc_counts stable_argsort example_counts_input
     = Return [("Mumbai", 2%nat); ("Pune", 1%nat); ("Unknown", 1%nat)]
  /\ loc_counts stable_argsort example_counts_input
     <> Return [("Mumbai", 2%nat); ("Unknown", 1%nat); ("Pune", 1%nat)].
Proof.
  split; [exact stable_argsort_sorts|]. split; [reflexivity | discriminate].
Qed.

(** ** The charts section and the frame behind the feed and the export *)

Section Store.

Lemma bind_M_Return {A B : Type} (m : M A) (k : A -> M B) (h h1 : store) (a : A) :
  m h = Return (a, h1) -> (m ≫= k) h = k a h1.
Proof. unfold mbind, M_bind. now intros ->. Qed.

Lemma bind_M_Raised {A B : Type} (m : M A) (k : A -> M B) (h : store) (e : exc) :
  m h = Raised e -> (m ≫= k) h = Raised e.
Proof. unfold mbind, M_bind. now intros ->. Qed.

(** A new object takes a reference that holds nothing, and every object
    already in the store stays as it is. *)
Lemma alloc_spec (o : object) (h : store) :
  exists a, alloc o h = Return (a, <[a := o]> h)
            /\ h !! a = None /\ h ⊆ <[a := o]> h.
Proof.
  exists (fresh (dom h)).
  assert (Hfresh : h !! fresh (dom h) = None)
    by apply not_elem_of_dom, is_fresh.
  split; [reflexivity|]. split; [exact Hfresh|].
  now apply insert_subseteq.
Qed.

Lemma get_frame_spec (a : nat) (d : DataFrame) (h : store) :
  h !! a = Some (OFrame d) -> get_frame a h = Return (d, h).
Proof. unfold get_frame. now intros ->. Qed.

Lemma get_series_spec (a : nat) (c : list pyval) (h : store) :
  h !! a = Some (OSeries c) -> get_series a h = Return (c, h).
Proof. unfold get_series. now intros ->. Qed.

Lemma get_counts_spec (a : nat) (g : counts) (h : store) :
  h !! a = Some (OCounts g) -> get_counts a h = Return (g, h).
Proof. unfold get_counts. now intros ->. Qed.

(** After reading its operands, a call builds one new object. *)
Lemma then_alloc {A : Type} (m : M A) (x : A) (f : A -> object) (h : store) :
  m h = Return (x, h) ->
  exists a h', (m ≫= fun y => alloc (f y)) h = Return (a, h')
               /\ h ⊆ h' /\ h !! a = None /\ h' !! a = Some (f x).
Proof.
  intros Hm. destruct (alloc_spec (f x) h) as (a & Ha & Hnone & Hsub).
  exists a, (<[a := f x]> h). rewrite (bind_M_Return _ _ _ _ _ Hm).
  split; [exact Ha|]. split; [exact Hsub|]. split; [exact Hnone|].
  apply lookup_insert_eq.
Qed.

Lemma m_getitem_location (a : nat) (d : DataFrame) (h : store) :
  h !! a = Some (OFrame d) -> In "location" (columns d) ->
  exists s h', m_getitem a "location" h = Return (s, h')
               /\ h ⊆ h' /\ h !! s = None
               /\ h' !! s = Some (OSeries (map location (rows d))).
Proof.
  intros Ha Hcol. unfold m_getitem.
  rewrite (bind_M_Return _ _ _ _ _ (get_frame_spec a d h Ha)).
  apply (then_alloc (lift (getitem_col d "location")) _ OSeries).
  now rewrite (getitem_col_location d Hcol).
Qed.

Lemma m_fillna_spec (s : nat) (v : string) (c : list pyval) (h : store) :
  h !! s = Some (OSeries c) ->
  exists a h', m_fillna s v h = Return (a, h')
               /\ h ⊆ h' /\ h !! a = None
               /\ h' !! a = Some (OSeries (fillna v c)).
Proof.
  intros Hs.
  exact (then_alloc (get_series s) c (fun c => OSeries (fillna v c)) h
           (get_series_spec s c h Hs)).
Qed.

Lemma m_replace_spec (s : nat) (old new : string) (c : list pyval) (h : store) :
  h !! s = Some (OSeries c) ->
  exists a h', m_replace s old new h = Return (a, h')
               /\ h ⊆ h' /\ h !! a = None
               /\ h' !! a = Some (OSeries (replace old new c)).
Proof.
  intros Hs.
  exact (then_alloc (get_series s) c (fun c => OSeries (replace old new c)) h
           (get_series_spec s c h Hs)).
Qed.

Lemma m_assign_location_spec (a s : nat) (d : DataFrame) (c : list pyval)
    (h : store) :
  h !! a = Some (OFrame d) -> h !! s = Some (OSeries c) ->
  exists b h', m_assign_location a s h = Return (b, h')
               /\ h ⊆ h' /\ h !! b = None
               /\ h' !! b = Some (OFrame (assign_location d c)).
Proof.
  intros Ha Hs. unfold m_assign_location.
  rewrite (bind_M_Return _ _ _ _ _ (get_frame_spec a d h Ha)).
  exact (then_alloc (get_series s) c (fun c => OFrame (assign_location d c)) h
           (get_series_spec s c h Hs)).
Qed.

Lemma m_groupby_size_spec (a : nat) (d : DataFrame) (h : store) :
  h !! a = Some (OFrame d) ->
  exists b h', m_groupby_size a h = Return (b, h')
               /\ h ⊆ h' /\ h !! b = None
               /\ h' !! b = Some (OCounts (groupby_size d)).
Proof.
  intros Ha.
  exact (then_alloc (get_frame a) d (fun d => OCounts (groupby_size d)) h
           (get_frame_spec a d h Ha)).
Qed.

Lemma m_sort_values_desc_spec (kind : counts -> counts) (a : nat)
    (g : counts) (h : store) :
  h !! a = Some (OCounts g) ->
  exists b h', m_sort_values_desc kind a h = Return (b, h')
               /\ h ⊆ h' /\ h !! b = None
               /\ h' !! b = Some (OCounts (sort_values_desc kind g)).
Proof.
  intros Ha.
  exact (then_alloc (get_counts a) g
           (fun g => OCounts (sort_values_desc kind g)) h
           (get_counts_spec a g h Ha)).
Qed.

Lemma m_head_spec (n a : nat) (g : counts) (h : store) :
  h !! a = Some (OCounts g) ->
  exists b h', m_head n a h = Return (b, h')
               /\ h ⊆ h' /\ h !! b = None
               /\ h' !! b = Some (OCounts (head n g)).
Proof.
  intros Ha.
  exact (then_alloc (get_counts a) g (fun g => OCounts (head n g)) h
           (get_counts_spec a g h Ha)).
Qed.

(** The aggregation builds its result in new objects only: the store grows,
    and the reference returned holds the value of [loc_counts]. *)
Lemma m_loc_counts_spec (kind : counts -> counts) (a : nat) (d : DataFrame)
    (h : store) :
  h !! a = Some (OFrame d) -> In "location" (columns d) ->
  exists lc h' g,
    m_loc_counts kind a h = Return (lc, h')
    /\ h ⊆ h' /\ h !! lc = None
    /\ h' !! lc = Some (OCounts g)
    /\ loc_counts kind d = Return g.
Proof.
  intros Ha Hcol. unfold m_loc_counts.
  destruct (m_getitem_location a d h Ha Hcol) as (s0 & h0 & E0 & S0 & _ & L0).
  rewrite (bind_M_Return _ _ _ _ _ E0).
  destruct (m_fillna_spec s0 "" _ h0 L0) as (s1 & h1 & E1 & S1 & _ & L1).
  rewrite (bind_M_Return _ _ _ _ _ E1).
  destruct (m_replace_spec s1 "" "Unknown" _ h1 L1) as (s2 & h2 & E2 & S2 & _ & L2).
  rewrite (bind_M_Return _ _ _ _ _ E2).
  assert (Ha2 : h2 !! a = Some (OFrame d)).
  { eapply lookup_weaken; [|exact S2]. eapply lookup_weaken; [|exact S1].
    eapply lookup_weaken; [exact Ha | exact S0]. }
  destruct (m_assign_location_spec a s2 d _ h2 Ha2 L2)
    as (b & h3 & E3 & S3 & _ & L3).
  rewrite (bind_M_Return _ _ _ _ _ E3).
  destruct (m_groupby_size_spec b _ h3 L3) as (gr & h4 & E4 & S4 & _ & L4).
  rewrite (bind_M_Return _ _ _ _ _ E4).
  destruct (m_sort_values_desc_spec kind gr _ h4 L4) as (so & h5 & E5 & S5 & _ & L5).
  rewrite (bind_M_Return _ _ _ _ _ E5).
  destruct (m_head_spec 15 so _ h5 L5) as (lc & h6 & E6 & S6 & N6 & L6).
  assert (Hsub5 : h ⊆ h5).
  { etrans; [exact S0|]. etrans; [exact S1|]. etrans; [exact S2|].
    etrans; [exact S3|]. etrans; [exact S4|]. exact S5. }
  exists lc, h6, (head 15 (sort_values_desc kind (groupby_size
    (assign_location d (replace "" "Unknown" (fillna "" (map location (rows d)))))))).
  split; [exact E6|]. split; [etrans; [exact Hsub5 | exact S6]|].
  split.
  - destruct (h !! lc) as [o|] eqn:Ho; [|reflexivity].
    apply (lookup_weaken _ _ _ _ Ho) in Hsub5. congruence.
  - split; [exact L6|].
    unfold loc_counts. now rewrite (getitem_col_location d Hcol).
Qed.

(** The feed reads the frame and leaves the store as it is. *)
Lemma feed_spec (a : nat) (d : DataFrame) (h : store) :
  h !! a = Some (OFrame d) -> In "location" (columns d) ->
  exists ns, feed a h = Return ((ns, map card_of (rows d)), h).
Proof.
  intros Ha Hcol. unfold feed.
  rewrite (bind_M_Return _ _ _ _ _ (get_frame_spec a d h Ha)).
  destruct (df_empty d) eqn:Hempty.
  - exists [Warning msg_no_tweets]. unfold df_empty in Hempty.
    destruct (columns d); [destruct Hcol|].
    destruct (rows d); [reflexivity | discriminate].
  - now exists [].
Qed.

End Store.

(** C9: the aggregation and the chart leave the filtered frame as it is.
    Whatever sort the aggregation uses, with the frame [d] at the reference held by [df_filtered], and a chart
    library that is absent or works on the object it is handed, the charts
    section ends with [d] still at that reference, and a run from the export
    to the feed writes the CSV of [d] and shows one card per row of [d]; the
    only exception that can leave is one raised by the chart library that
    does not derive from [Exception]. *)
Theorem charts_leave_frame (kind : counts -> counts) (alt : option altair)
    (a : nat) (d : DataFrame) (h : store) :
  h !! a = Some (OFrame d) -> In "location" (columns d) ->
  (forall lib, alt = Some lib -> confined lib) ->
  match charts kind alt a h with
  | Return (_, h') => h' !! a = Some (OFrame d)
  | Raised e => exc_is_Exception e = false /\ exists lib, alt = Some lib
  end
  /\ match export_charts_feed kind alt a h with
     | Return ((text, _, cards), h') =>
         text = to_csv d /\ cards = map card_of (rows d)
         /\ h' !! a = Some (OFrame d)
     | Raised e => exc_is_Exception e = false /\ exists lib, alt = Some lib
     end.
Proof.
  intros Ha Hcol Hconf.
  assert (Hcharts :
    match charts kind alt a h with
    | Return (_, h') => h' !! a = Some (OFrame d)
    | Raised e => exc_is_Exception e = false /\ exists lib, alt = Some lib
    end).
  { unfold charts. rewrite (bind_M_Return _ _ _ _ _ (get_frame_spec a d h Ha)).
    destruct (df_empty d); [exact Ha|].
    destruct (m_loc_counts_spec kind a d h Ha Hcol)
      as (lc & h1 & g & E & Hsub & Hnone & _ & _).
    rewrite (bind_M_Return _ _ _ _ _ E).
    pose proof (lookup_weaken _ _ _ _ Ha Hsub) as Ha1.
    assert (Hne : a <> lc) by congruence.
    unfold try_chart. destruct alt as [lib|]; [|exact Ha1].
    pose proof (Hconf lib eq_refl lc h1 a Hne ltac:(eauto)) as Hfr.
    destruct (render lib lc h1) as [h2 [e|]]; cbn in Hfr.
    - destruct (exc_is_Exception e) eqn:He; [congruence|]. eauto.
    - congruence. }
  split; [exact Hcharts|].
  unfold export_charts_feed.
  rewrite (bind_M_Return _ _ _ _ _ (get_frame_spec a d h Ha)).
  unfold mbind at 1. unfold M_bind at 1.
  destruct (charts kind alt a h) as [[ns h1]|e]; [|exact Hcharts].
  destruct (feed_spec a d h1 Hcharts Hcol) as [ns' Hfeed].
  rewrite (bind_M_Return _ _ _ _ _ Hfeed). cbn. auto.
Qed.

Lemma charts_leave_frame_witness :
  match charts stable_argsort None 0 example_store with
  | Return (_, h') => h' !! 0%nat = Some (OFrame (generate_sample_data 3))
  | Raised e => exc_is_Exception e = false /\ exists lib, @None altair = Some lib
  end.
Proof.
  refine (proj1 (charts_leave_frame stable_argsort None 0 (generate_sample_data 3)
                   example_store _ _ _)).
  - reflexivity.
  - vm_compute. do 4 right. left. reflexivity.
  - discriminate.
Defined.

(** * Further properties of the script *)

(** ** Card rendering *)

Section Escaping.

Lemma append_String (c : ascii) (a b : string) :
  (String c a ++ b)%string = String c (a ++ b).
Proof. reflexivity. Qed.

Lemma string_app_assoc (a b c : string) :
  ((a ++ b) ++ c = a ++ (b ++ c))%string.
Proof.
  induction a as [|x a IH]; [reflexivity|].
  now rewrite !append_String, IH.
Qed.

Lemma str_replace_app (old : ascii) (new a b : string) :
  str_replace old new (a ++ b)
  = (str_replace old new a ++ str_replace old new b)%string.
Proof.
  induction a as [|c a IH]; [reflexivity|].
  rewrite append_String. cbn [str_replace].
  destruct (Ascii.eqb c old); rewrite IH.
  - now rewrite string_app_assoc.
  - now rewrite append_String.
Qed.

(** The four replacements do not feed one another: "&" is replaced first,
    and no replacement text holds a character that a later step replaces. *)
Lemma replacements_single_pass (s : string) :
  str_replace LF "<br>"
    (str_replace ">" "&gt;"
       (str_replace "<" "&lt;" (str_replace "&" "&amp;" s)))
  = escape s.
Proof.
  induction s as [|c s IH]; [reflexivity|].
  cbn [escape]. rewrite <- IH. clear IH. unfold escape_char.
  change (String c s) with (String c "" ++ s)%string.
  rewrite !str_replace_app. f_equal.
  destruct (Ascii.eqb_spec c "&") as [->|Hamp]; [reflexivity|].
  destruct (Ascii.eqb_spec c "<") as [->|Hlt]; [reflexivity|].
  destruct (Ascii.eqb_spec c ">") as [->|Hgt]; [reflexivity|].
  destruct (Ascii.eqb_spec c LF) as [->|Hlf]; [reflexivity|].
  simpl.
  rewrite (proj2 (Ascii.eqb_neq c "&") Hamp). simpl.
  rewrite (proj2 (Ascii.eqb_neq c "<") Hlt). simpl.
  rewrite (proj2 (Ascii.eqb_neq c ">") Hgt). simpl.
  now rewrite (proj2 (Ascii.eqb_neq c LF) Hlf).
Qed.

Lemma has_char_app (x : ascii) (a b : string) :
  has_char x (a ++ b) = has_char x a || has_char x b.
Proof.
  induction a as [|c a IH]; [reflexivity|].
  rewrite append_String. cbn [has_char]. rewrite IH. now rewrite orb_assoc.
Qed.

Lemma append_empty (a : string) : ("" ++ a)%string = a.
Proof. reflexivity. Qed.

Lemma unescape_escape (s : string) : unescape (escape s) = s.
Proof.
  induction s as [|c s IH]; [reflexivity|].
  cbn [escape]. unfold escape_char.
  destruct (Ascii.eqb_spec c "&") as [->|Hamp];
    [rewrite !append_String, append_empty; simpl; now rewrite IH|].
  destruct (Ascii.eqb_spec c "<") as [->|Hlt];
    [rewrite !append_String, append_empty; simpl; now rewrite IH|].
  destruct (Ascii.eqb_spec c ">") as [->|Hgt];
    [rewrite !append_String, append_empty; simpl; now rewrite IH|].
  destruct (Ascii.eqb_spec c LF) as [->|Hlf];
    [rewrite !append_String, append_empty; simpl; now rewrite IH|].
  rewrite append_String, append_empty. cbn [unescape].
  rewrite (proj2 (Ascii.eqb_neq c "&") Hamp), (proj2 (Ascii.eqb_neq c "<") Hlt).
  now rewrite IH.
Qed.

End Escaping.

Lemma text_or_empty (s : string) : format (py_or (PStr s) (PStr "")) = s.
Proof.
  unfold py_or. cbn. now destruct (String.eqb_spec s "") as [->|].
Qed.

Lemma safe_text_escape (t : pyval) :
  safe_text t = escape (format (py_or t (PStr ""))).
Proof. unfold safe_text. apply replacements_single_pass. Qed.

(** X1: the body of a card is the text with each character replaced once:
    "&" by "&amp;", "<" by "&lt;", ">" by "&gt;", a line break by "<br>";
    nothing is replaced twice, a missing text gives the empty body, and the
    text can be read back from the body, so different texts give different
    bodies. *)
Theorem safe_text_one_pass :
  (forall s, safe_text (PStr s) = escape s)
  /\ safe_text PNone = ""
  /\ (forall s, unescape (safe_text (PStr s)) = s)
  /\ (forall s1 s2, safe_text (PStr s1) = safe_text (PStr s2) -> s1 = s2)
  /\ (forall r, card_body (render_row r)
                = escape (format (py_or (text r) (PStr "")))).
Proof.
  assert (H1 : forall s, safe_text (PStr s) = escape s).
  { intros s. now rewrite safe_text_escape, text_or_empty. }
  assert (H2 : forall s, unescape (safe_text (PStr s)) = s).
  { intros s. rewrite H1. apply unescape_escape. }
  split; [exact H1|]. split; [reflexivity|]. split; [exact H2|]. split.
  - intros s1 s2 Heq. rewrite <- (H2 s1), <- (H2 s2). now rewrite Heq.
  - intros r. apply safe_text_escape.
Qed.

Lemma has_char_escape (x : ascii) (s : string) :
  has_char x (escape s)
  = existsb (fun c => has_char x (escape_char c)) (list_ascii_of_string s).
Proof.
  induction s as [|c s IH]; [reflexivity|].
  cbn [escape list_ascii_of_string existsb]. now rewrite has_char_app, IH.
Qed.

Lemma has_char_existsb (x : ascii) (s : string) :
  has_char x s = existsb (fun c => Ascii.eqb c x) (list_ascii_of_string s).
Proof.
  induction s as [|c s IH]; [reflexivity|].
  cbn [has_char list_ascii_of_string existsb]. now rewrite IH.
Qed.

Lemma existsb_pointwise {A : Type} (f g : A -> bool) (l : list A) :
  (forall x, f x = g x) -> existsb f l = existsb g l.
Proof.
  intros H. induction l as [|x l IH]; [reflexivity|].
  cbn. now rewrite H, IH.
Qed.

Lemma escape_char_marks (c : ascii) :
  has_char LF (escape_char c) = false
  /\ has_char "<" (escape_char c) = Ascii.eqb c LF
  /\ has_char ">" (escape_char c) = Ascii.eqb c LF.
Proof.
  unfold escape_char.
  destruct (Ascii.eqb_spec c "&") as [->|Hamp]; [now repeat split|].
  destruct (Ascii.eqb_spec c "<") as [->|Hlt]; [now repeat split|].
  destruct (Ascii.eqb_spec c ">") as [->|Hgt]; [now repeat split|].
  destruct (Ascii.eqb_spec c LF) as [->|Hlf]; [now repeat split|].
  cbn [has_char]. rewrite !orb_false_r.
  repeat split; now apply Ascii.eqb_neq.
Qed.

(** X2: the body of a card never holds a line break, and it holds a "<" (or
    a ">") exactly when the text holds a line break: the only markup a text
    can bring into a card is the "<br>" of its own line breaks. *)
Theorem safe_text_markup (t : pyval) :
  has_char LF (safe_text t) = false
  /\ has_char "<" (safe_text t) = has_char LF (format (py_or t (PStr "")))
  /\ has_char ">" (safe_text t) = has_char LF (format (py_or t (PStr ""))).
Proof.
  rewrite safe_text_escape. set (s := format (py_or t (PStr ""))).
  rewrite !has_char_escape, (has_char_existsb LF s).
  repeat split.
  - apply not_true_is_false. intros H.
    apply existsb_exists in H as (c & _ & Hc).
    now rewrite (proj1 (escape_char_marks c)) in Hc.
  - apply existsb_pointwise. intros c. apply escape_char_marks.
  - apply existsb_pointwise. intros c. apply escape_char_marks.
Qed.

(** ** More on the fetcher *)

(** Over a stretch of items that normalise, the loop collects their rows and
    goes on from the pull after them. *)
Lemma collect_prefix (items : nat -> step) (ts : list Tweet) (rs : list Row)
    (room i : nat) (acc : list Row) :
  (forall j t, nth_error ts j = Some t -> items (i + j)%nat = Item t) ->
  Forall2 (fun t r => normalise t = Return r) ts rs ->
  (List.length ts <= room)%nat ->
  collect items i room acc
  = collect items (i + List.length ts) (room - List.length ts) (acc ++ rs).
Proof.
  intros Hy Hn. revert i room acc Hy.
  induction Hn as [|t r ts rs Htr _ IH]; intros i room acc Hy Hroom.
  - cbn [List.length]. now rewrite Nat.add_0_r, Nat.sub_0_r, app_nil_r.
  - rewrite collect_eq. pose proof (Hy 0%nat t eq_refl) as H0.
    rewrite Nat.add_0_r in H0. rewrite H0.
    destruct room as [|room]; [cbn in Hroom; lia|].
    rewrite Htr. rewrite (IH (S i) room (acc ++ [r])).
    + cbn [List.length]. rewrite <- app_assoc. cbn [app].
      now replace (S i + List.length ts)%nat
        with (i + S (List.length ts))%nat by lia.
    + intros j t' Hj. replace (S i + j)%nat with (i + S j)%nat by lia.
      now apply Hy.
    + cbn in Hroom. lia.
Qed.

(** X3: at the limit.  When the iterator yields [limit] items that
    normalise, the loop still asks for one more: if that pull is an item or
    the end of the results, exactly the [limit] rows are returned, in order
    and without a notice; if that pull raises an [Exception], the rows
    already collected are dropped and the sample data is returned with a
    warning. *)
Theorem scrape_tweets_at_limit (m : sntwitter) (q : string) (limit : Z)
    (ts : list Tweet) (rs : list Row) :
  (0 < limit)%Z -> Z.of_nat (List.length ts) = limit ->
  (forall j t, nth_error ts j = Some t -> get_items m q j = Item t) ->
  Forall2 (fun t r => normalise t = Return r) ts rs ->
  ((exists t, get_items m q (List.length ts) = Item t)
   \/ get_items m q (List.length ts) = StopIteration ->
   scrape_tweets (Imported m) q limit = Return (mkDF record_columns rs, []))
  /\ (forall e, get_items m q (List.length ts) = Raises e ->
        exc_is_Exception e = true ->
        scrape_tweets (Imported m) q limit
        = Return (generate_sample_data limit, [Warning (msg_failed e)])).
Proof.
  intros Hpos Hlen Hy Hn.
  assert (Hc : collect (get_items m q) 0 (Z.to_nat limit) []
               = collect (get_items m q) (List.length ts) 0 rs).
  { rewrite (collect_prefix (get_items m q) ts rs (Z.to_nat limit) 0 [] Hy Hn)
      by lia.
    cbn [app Nat.add]. f_equal. lia. }
  assert (Hrs : rs <> []).
  { clear Hc Hy. destruct Hn; [cbn in Hlen; lia | discriminate]. }
  rewrite scrape_tweets_unfold, Hc, collect_eq. split.
  - intros [[t Ht]|Hstop]; [rewrite Ht | rewrite Hstop];
      destruct rs; congruence.
  - intros e He Hexc. now rewrite He, Hexc.
Qed.

Lemma scrape_tweets_at_limit_witness :
  scrape_tweets
    (Imported (module_of [plain_tweet "bob" "Hiring"] (Raises AttributeError)))
    "jobs" 1
  = Return (generate_sample_data 1, [Warning (msg_failed AttributeError)]).
Proof.
  refine (proj2 (scrape_tweets_at_limit
            (module_of [plain_tweet "bob" "Hiring"] (Raises AttributeError))
            "jobs" 1 [plain_tweet "bob" "Hiring"] _ _ eq_refl _ _)
            AttributeError eq_refl eq_refl).
  - lia.
  - intros [|[|j]] t Hj; try discriminate. injection Hj as <-. reflexivity.
  - repeat constructor.
Defined.

Lemma collect_agree (items1 items2 : nat -> step) (room i : nat)
    (acc : list Row) :
  (forall j, (i <= j <= i + room)%nat -> items1 j = items2 j) ->
  collect items1 i room acc = collect items2 i room acc.
Proof.
  revert i acc. induction room as [|room IH]; intros i acc Hag;
    assert (Hi : items1 i = items2 i) by (apply Hag; lia);
    rewrite (collect_eq items1), (collect_eq items2), Hi;
    [reflexivity|].
  destruct (items2 i) as [t| |e]; try reflexivity.
  destruct (normalise t) as [r|e]; [|reflexivity].
  apply IH. intros j Hj. apply Hag. lia.
Qed.

(** X4: for a limit of 0 or more, the fetch looks at the pulls 0 to [limit]
    and at nothing after them: two search modules that agree on these pulls
    give the same result, whatever they would yield later (a source without
    end included). *)
Theorem scrape_tweets_bounded (m1 m2 : sntwitter) (q : string) (limit : Z) :
  (0 <= limit)%Z ->
  (forall j, (Z.of_nat j <= limit)%Z -> get_items m1 q j = get_items m2 q j) ->
  scrape_tweets (Imported m1) q limit = scrape_tweets (Imported m2) q limit.
Proof.
  intros Hpos Hag. rewrite !scrape_tweets_unfold.
  rewrite (collect_agree (get_items m1 q) (get_items m2 q) (Z.to_nat limit) 0 []);
    [reflexivity|].
  intros j Hj. apply Hag. lia.
Qed.

Lemma scrape_tweets_bounded_witness :
  scrape_tweets
    (Imported (module_of [plain_tweet "a" "x"; plain_tweet "b" "y"] StopIteration))
    "jobs" 1
  = scrape_tweets
      (Imported (module_of [plain_tweet "a" "x"; plain_tweet "b" "y";
                            plain_tweet "c" "z"] (Raises KeyboardInterrupt)))
      "jobs" 1.
Proof.
  apply (scrape_tweets_bounded
           (module_of [plain_tweet "a" "x"; plain_tweet "b" "y"] StopIteration)
           (module_of [plain_tweet "a" "x"; plain_tweet "b" "y";
                       plain_tweet "c" "z"] (Raises KeyboardInterrupt))
           "jobs" 1); [lia|].
  intros [|[|j]] Hj; [reflexivity | reflexivity | lia].
Defined.

(** X5: every fallback is announced, and only a fallback is.  A returned
    frame is either the sample data together with exactly one notice, or the
    rows collected from the source (at least one) under the five columns
    with no notice at all. *)
Theorem scrape_tweets_notices (imp : import_result) (q : string) (limit : Z)
    (d : DataFrame) (ns : list notice) :
  scrape_tweets imp q limit = Return (d, ns) ->
  (d = generate_sample_data limit /\ exists n, ns = [n])
  \/ (ns = []
      /\ exists m r rs, imp = Imported m
                        /\ d = mkDF record_columns (r :: rs)
                        /\ loop (get_items m q) limit 0 [] (Return (r :: rs))).
Proof.
  rewrite scrape_tweets_unfold. destruct imp as [m|e].
  - pose proof (collect_loop (get_items m q) limit 0 []) as Hl.
    cbn [Z.of_nat] in Hl. rewrite Z.sub_0_r in Hl.
    destruct (collect _ _ _ _) as [[|r rs]|e].
    + intros [= <- <-]. left. eauto.
    + intros [= <- <-]. right. split; [reflexivity|]. exists m, r, rs. auto.
    + destruct (exc_is_Exception e); [|discriminate].
      intros [= <- <-]. left. eauto.
  - destruct (exc_is_Exception e); [|discriminate].
    intros [= <- <-]. left. eauto.
Qed.

Lemma scrape_tweets_notices_witness :
  (generate_sample_data 10 = generate_sample_data 10
   /\ exists n, [Info msg_not_installed] = [n])
  \/ ([Info msg_not_installed] = []
      /\ exists m r rs, ImportRaises ModuleNotFoundError = Imported m
                        /\ generate_sample_data 10 = mkDF record_columns (r :: rs)
                        /\ loop (get_items m "jobs") 10 0 [] (Return (r :: rs))).
Proof.
  exact (scrape_tweets_notices (ImportRaises ModuleNotFoundError) "jobs" 10
           (generate_sample_data 10) [Info msg_not_installed] eq_refl).
Defined.

Lemma py_or_truthy (a b : pyval) : truthy a = true -> py_or a b = a.
Proof. unfold py_or. now intros ->. Qed.

Lemma py_or_falsy (a b : pyval) : truthy a = false -> py_or a b = b.
Proof. unfold py_or. now intros ->. Qed.

Lemma truthy_nonempty (v : pyval) :
  truthy v = true -> exists s, v = PStr s /\ s <> "".
Proof.
  destruct v as [|s]; [discriminate|]. cbn. intros H. exists s.
  split; [reflexivity|]. apply negb_true_iff in H. now apply String.eqb_neq.
Qed.

(** The username the source reports, or the empty string. *)
Lemma raw_handle_str (u : user_value) :
  exists raw, py_or (user_attr username u) (PStr "") = PStr raw.
Proof. apply py_or_str, user_attr_shape. Qed.

(** The display name and the url of a normalised row. *)
Lemma normalise_strings (t : Tweet) (r : Row) :
  normalise t = Return r ->
  is_str (display_name r) /\ is_str (url r) /\ url r <> PStr "".
Proof.
  unfold normalise. destruct (user t) as [u|]; [|discriminate].
  intros [= <-]. destruct (raw_handle_str u) as [raw Hraw].
  cbn [display_name url]. rewrite Hraw. cbn [format].
  split; [|split].
  - destruct (truthy (user_attr displayname u)) eqn:Hd.
    + rewrite (py_or_truthy _ _ Hd).
      destruct (truthy_nonempty _ Hd) as (s & -> & _). now exists s.
    + rewrite (py_or_falsy _ _ Hd). now exists raw.
  - destruct (truthy (getattr (tweet_url t) PNone)) eqn:Hd.
    + rewrite (py_or_truthy _ _ Hd).
      destruct (truthy_nonempty _ Hd) as (s & -> & _). now exists s.
    + rewrite (py_or_falsy _ _ Hd). eexists. reflexivity.
  - destruct (truthy (getattr (tweet_url t) PNone)) eqn:Hd.
    + rewrite (py_or_truthy _ _ Hd).
      destruct (truthy_nonempty _ Hd) as (s & -> & Hs). congruence.
    + rewrite (py_or_falsy _ _ Hd). discriminate.
Qed.

(** X6: how a live row is filled when the source leaves fields out.  The
    display name and the url of a normalised row are strings and the url is
    never empty.  Without a display name (missing, [None] or empty) the row
    takes the reported username, without "@", as its display name; without
    a url it takes the profile address "https://twitter.com/" followed by
    that username.  The text is [None] exactly when [content] is missing,
    [None] or empty while [rawContent] is present and [None]. *)
Theorem normalise_fallbacks (t : Tweet) (u : user_value) (r : Row) :
  user t = Some u -> normalise t = Return r ->
  exists raw,
    py_or (user_attr username u) (PStr "") = PStr raw
    /\ handle r = (if String.eqb raw "" then PStr "" else PStr (String "@" raw))
    /\ is_str (display_name r) /\ is_str (url r) /\ url r <> PStr ""
    /\ (truthy (user_attr displayname u) = false -> display_name r = PStr raw)
    /\ (truthy (getattr (tweet_url t) PNone) = false ->
        url r = PStr ("https://twitter.com/" ++ raw))
    /\ (text r = PNone
        <-> truthy (getattr (content t) PNone) = false
            /\ rawContent t = Attr PNone).
Proof.
  intros Hu. unfold normalise. rewrite Hu. intros [= <-].
  destruct (raw_handle_str u) as [raw Hraw]. exists raw.
  cbn [handle display_name url text]. rewrite Hraw. cbn [format truthy].
  split; [reflexivity|]. split.
  { now destruct (String.eqb raw ""). }
  split.
  { destruct (truthy (user_attr displayname u)) eqn:Hd.
    - rewrite (py_or_truthy _ _ Hd).
      destruct (truthy_nonempty _ Hd) as (s & -> & _). now exists s.
    - rewrite (py_or_falsy _ _ Hd). now exists raw. }
  split.
  { destruct (truthy (getattr (tweet_url t) PNone)) eqn:Hd.
    - rewrite (py_or_truthy _ _ Hd).
      destruct (truthy_nonempty _ Hd) as (s & -> & _). now exists s.
    - rewrite (py_or_falsy _ _ Hd). eexists. reflexivity. }
  split.
  { destruct (truthy (getattr (tweet_url t) PNone)) eqn:Hd.
    - rewrite (py_or_truthy _ _ Hd).
      destruct (truthy_nonempty _ Hd) as (s & -> & Hs). congruence.
    - rewrite (py_or_falsy _ _ Hd). discriminate. }
  split; [intros Hd; now rewrite (py_or_falsy _ _ Hd)|].
  split; [intros Hd; now rewrite (py_or_falsy _ _ Hd)|].
  destruct (truthy (getattr (content t) PNone)) eqn:Hc.
  - rewrite (py_or_truthy _ _ Hc).
    destruct (truthy_nonempty _ Hc) as (s & -> & _).
    split; [discriminate | intros [? _]; discriminate].
  - rewrite (py_or_falsy _ _ Hc).
    destruct (rawContent t) as [|[|s]]; cbn; split; try discriminate; auto;
      intros [_ ?]; discriminate.
Qed.

Lemma normalise_fallbacks_witness :
  exists raw,
    PStr "bob" = PStr raw
    /\ display_name
         (mkRow (PStr "bob") (PStr "@bob") (PStr "Hiring")
                (PStr "https://twitter.com/bob") (PStr ""))
       = PStr raw.
Proof.
  destruct (normalise_fallbacks (plain_tweet "bob" "Hiring") (plain_user "bob")
              (mkRow (PStr "bob") (PStr "@bob") (PStr "Hiring")
                     (PStr "https://twitter.com/bob") (PStr ""))
              eq_refl eq_refl)
    as (raw & Hraw & _ & _ & _ & _ & Hname & _).
  exists raw. split; [exact Hraw | exact (Hname eq_refl)].
Defined.

(** X7: in every frame that [scrape_tweets] returns, live or sample, the
    display name and the url of each row are strings and the url is not
    empty. *)
Theorem scrape_tweets_urls (imp : import_result) (q : string) (limit : Z)
    (d : DataFrame) (ns : list notice) (r : Row) :
  scrape_tweets imp q limit = Return (d, ns) -> In r (rows d) ->
  is_str (display_name r) /\ is_str (url r) /\ url r <> PStr "".
Proof.
  intros Hs Hin.
  destruct (scrape_tweets_rows _ _ _ _ _ _ Hs Hin)
    as [Hsam|(m & j & t & -> & Hj & Ht)].
  - rewrite rows_generate_sample_data in Hsam.
    apply in_map_iff in Hsam as (k & <- & _).
    unfold sample_row. destruct (names_at (Z.of_nat k)) as [[[name hdl] txt] loc].
    cbn. repeat split; [eexists; reflexivity | eexists; reflexivity | discriminate].
  - exact (normalise_strings t r Ht).
Qed.

Lemma scrape_tweets_urls_witness :
  is_str (PStr "bob") /\ is_str (PStr "https://twitter.com/bob")
  /\ PStr "https://twitter.com/bob" <> PStr "".
Proof.
  exact (scrape_tweets_urls
           (Imported (module_of [plain_tweet "bob" "Hiring"] StopIteration))
           "jobs" 10
           (mkDF record_columns
              [mkRow (PStr "bob") (PStr "@bob") (PStr "Hiring")
                     (PStr "https://twitter.com/bob") (PStr "")])
           []
           (mkRow (PStr "bob") (PStr "@bob") (PStr "Hiring")
                  (PStr "https://twitter.com/bob") (PStr ""))
           eq_refl (or_introl eq_refl)).
Defined.

(** ** More on the sample generator *)

Section Decimal.

(** [int(str(z)) = z] *)
Lemma int_of_str_of_int (z : Z) : int_of_str (Py.str_of_int z) = Some z.
Proof.
  unfold int_of_str, Py.str_of_int. rewrite NilZero.isi.
  - cbn. now rewrite DecimalZ.of_to.
  - destruct z; cbn; try discriminate.
    intros [= H]. now apply DecimalPos.Unsigned.to_uint_nonnil in H.
  - destruct z; cbn; try discriminate.
    intros [= H]. now apply DecimalPos.Unsigned.to_uint_nonnil in H.
Qed.

Lemma str_of_int_inj (x y : Z) : Py.str_of_int x = Py.str_of_int y -> x = y.
Proof.
  intros H. apply (f_equal int_of_str) in H.
  rewrite !int_of_str_of_int in H. now injection H.
Qed.

Lemma append_inv_head (a x y : string) : (a ++ x = a ++ y)%string -> x = y.
Proof.
  induction a as [|c a IH]; [easy|].
  rewrite !append_String. intros [= H]. now apply IH.
Qed.

Lemma diverge_append (a b x y : string) :
  diverge a b = true -> (a ++ x)%string <> (b ++ y)%string.
Proof.
  revert b. induction a as [|c a IH]; intros [|d b] Hd; try discriminate.
  rewrite !append_String. intros [= Hc Hab].
  cbn [diverge] in Hd. subst d. rewrite Ascii.eqb_refl in Hd. cbn in Hd.
  exact (IH b Hd Hab).
Qed.

End Decimal.

Lemma firstn_map_seq {A : Type} (f : nat -> A) (start n m : nat) :
  (n <= m)%nat -> firstn n (map f (seq start m)) = map f (seq start n).
Proof.
  revert start m. induction n as [|n IH]; intros start [|m] Hle;
    try reflexivity; [lia|].
  cbn. f_equal. apply IH. lia.
Qed.

(** X8: asking for more sample rows never changes the earlier ones: the
    sample data for [n] is the first [n] rows of the sample data for any
    larger count. *)
Theorem generate_sample_data_prefix (n m : Z) :
  (0 <= n <= m)%Z ->
  rows (generate_sample_data n)
  = firstn (Z.to_nat n) (rows (generate_sample_data m)).
Proof.
  intros Hnm. rewrite !rows_generate_sample_data.
  symmetry. apply firstn_map_seq. lia.
Qed.

Lemma generate_sample_data_prefix_witness :
  rows (generate_sample_data 3)
  = firstn 3 (rows (generate_sample_data 40)).
Proof.
  exact (generate_sample_data_prefix 3 40 ltac:(lia)).
Defined.

(** Two catalog entries with different handles give urls that part before
    the handle ends. *)
Lemma names_handles_diverge :
  forallb (fun a => forallb (fun b =>
             String.eqb (handle_slash a) (handle_slash b)
             || diverge (handle_slash a) (handle_slash b)) names) names
  = true.
Proof. vm_compute. reflexivity. Qed.

Lemma sample_url (i : Z) :
  exists name hdl txt loc,
    names_at i = (name, hdl, txt, loc)
    /\ url (sample_row i)
       = PStr ("https://twitter.com/"
               ++ (handle_slash (names_at i)
                   ++ ("status/" ++ Py.str_of_int (1700000000000000000 + i)))).
Proof.
  unfold sample_row, handle_slash.
  destruct (names_at i) as [[[name hdl] txt] loc].
  exists name, hdl, txt, loc. split; [reflexivity|]. cbn [url].
  f_equal. f_equal. now rewrite string_app_assoc.
Qed.

Lemma sample_url_inj (i j : Z) :
  url (sample_row i) = url (sample_row j) -> i = j.
Proof.
  destruct (sample_url i) as (n1 & h1 & t1 & l1 & _ & ->).
  destruct (sample_url j) as (n2 & h2 & t2 & l2 & _ & ->).
  intros [= H]. apply append_inv_head in H.
  pose proof names_handles_diverge as Hall.
  rewrite forallb_forall in Hall.
  pose proof (Hall _ (names_at_In i)) as Hi. rewrite forallb_forall in Hi.
  pose proof (Hi _ (names_at_In j)) as Hij.
  apply orb_true_iff in Hij as [Heq|Hdiv].
  - apply String.eqb_eq in Heq. rewrite Heq in H.
    apply append_inv_head, append_inv_head, str_of_int_inj in H. lia.
  - now apply (diverge_append _ _ _ _ Hdiv) in H.
Qed.

(** X9: no two rows of the sample data share a url: the synthetic status
    ids are all different, for every count. *)
Theorem generate_sample_data_urls_distinct (n : Z) :
  List.NoDup (map url (rows (generate_sample_data n))).
Proof.
  rewrite rows_generate_sample_data, map_map.
  apply Finite.Injective_map_NoDup_in; [|apply seq_NoDup].
  intros x y _ _ H. apply sample_url_inj in H. lia.
Qed.

(** ** More on the region filter *)

Section Case.

Lemma lower_char_idem (c : ascii) : Py.lower_char (Py.lower_char c) = Py.lower_char c.
Proof. destruct c as [[] [] [] [] [] [] [] []]; reflexivity. Qed.

Lemma isspace_lower_char (c : ascii) : Py.isspace (Py.lower_char c) = Py.isspace c.
Proof. destruct c as [[] [] [] [] [] [] [] []]; reflexivity. Qed.

Lemma comma_lower_char (c : ascii) :
  Ascii.eqb (Py.lower_char c) "," = Ascii.eqb c ",".
Proof. destruct c as [[] [] [] [] [] [] [] []]; reflexivity. Qed.

Lemma lower_idem (s : string) : Py.lower (Py.lower s) = Py.lower s.
Proof.
  induction s as [|c s IH]; [reflexivity|].
  cbn [Py.lower]. now rewrite lower_char_idem, IH.
Qed.

Lemma lower_empty (s : string) : Py.lower s = "" <-> s = "".
Proof. destruct s; [easy | split; discriminate]. Qed.

Lemma lower_lstrip (s : string) : Py.lstrip (Py.lower s) = Py.lower (Py.lstrip s).
Proof.
  induction s as [|c s IH]; [reflexivity|].
  cbn [Py.lower Py.lstrip]. rewrite isspace_lower_char.
  destruct (Py.isspace c); [exact IH | reflexivity].
Qed.

Lemma lower_rstrip (s : string) : Py.rstrip (Py.lower s) = Py.lower (Py.rstrip s).
Proof.
  induction s as [|c s IH]; [reflexivity|].
  cbn [Py.lower Py.rstrip]. rewrite IH, isspace_lower_char.
  destruct (Py.rstrip s); cbn [Py.lower]; [|reflexivity].
  now destruct (Py.isspace c).
Qed.

Lemma lower_strip (s : string) : Py.strip (Py.lower s) = Py.lower (Py.strip s).
Proof. unfold Py.strip. now rewrite lower_lstrip, lower_rstrip. Qed.

Lemma lower_split (s : string) :
  Py.split "," (Py.lower s) = map Py.lower (Py.split "," s).
Proof.
  induction s as [|c s IH]; [reflexivity|].
  cbn [Py.lower Py.split]. rewrite comma_lower_char, IH.
  destruct (Ascii.eqb c ","); [reflexivity|].
  now destruct (Py.split "," s).
Qed.

Lemma eqb_lower_empty (s : string) :
  String.eqb (Py.lower s) "" = String.eqb s "".
Proof. now destruct s. Qed.

(** The tokens do not depend on the case of the filter string. *)
Lemma regions_lower (s : string) : regions (Py.lower s) = regions s.
Proof.
  unfold regions. rewrite lower_split.
  induction (Py.split "," s) as [|r l IH]; [reflexivity|].
  cbn [map List.filter]. rewrite lower_strip, eqb_lower_empty.
  destruct (String.eqb (Py.strip r) ""); cbn [negb map].
  - exact IH.
  - now rewrite IH, lower_strip, lower_idem.
Qed.

Lemma apply_region_filter_lower (d : DataFrame) (s : string) :
  apply_region_filter d (Py.lower s) = apply_region_filter d s.
Proof.
  unfold apply_region_filter.
  now rewrite lower_strip, eqb_lower_empty, regions_lower.
Qed.

End Case.

(** X10: the region filter ignores case on both sides.  Filter strings that
    differ only in the case of their letters give the same result on every
    frame, and locations that differ only in case are kept or dropped
    together. *)
Theorem region_filter_ignores_case :
  (forall d s s', Py.lower s = Py.lower s' ->
     apply_region_filter d s = apply_region_filter d s')
  /\ (forall regs loc loc', Py.lower loc = Py.lower loc' ->
        matches regs (PStr loc) = matches regs (PStr loc')).
Proof.
  split.
  - intros d s s' H.
    rewrite <- (apply_region_filter_lower d s), <- (apply_region_filter_lower d s').
    now rewrite H.
  - intros regs loc loc' H. unfold matches. now rewrite !text_or_empty, H.
Qed.

Lemma region_filter_ignores_case_witness :
  apply_region_filter example_locations "INDIA, Remote"
  = apply_region_filter example_locations "india, remote".
Proof.
  exact (proj1 region_filter_ignores_case example_locations
           "INDIA, Remote" "india, remote" eq_refl).
Defined.

Lemma split_nonempty (sep : ascii) (s : string) : Py.split sep s <> [].
Proof.
  destruct s as [|c s]; cbn; [discriminate|].
  destruct (Ascii.eqb c sep); [discriminate|].
  destruct (Py.split sep s); discriminate.
Qed.

Lemma split_append_comma (a b : string) :
  Py.split "," (a ++ String "," b) = Py.split "," a ++ Py.split "," b.
Proof.
  induction a as [|c a IH]; [reflexivity|].
  rewrite append_String. cbn [Py.split]. rewrite IH.
  destruct (Ascii.eqb c ","); [reflexivity|].
  pose proof (split_nonempty "," a) as Hne.
  destruct (Py.split "," a); [congruence | reflexivity].
Qed.

Lemma regions_append_comma (s1 s2 : string) :
  regions (s1 ++ String "," s2) = regions s1 ++ regions s2.
Proof.
  unfold regions. now rewrite split_append_comma, List.filter_app, List.map_app.
Qed.

Lemma matches_app (r1 r2 : list string) (v : pyval) :
  matches (r1 ++ r2) v = matches r1 v || matches r2 v.
Proof. unfold matches. apply existsb_app. Qed.

(** The rows of a filtered frame, when there are tokens. *)
Lemma apply_region_filter_rows (d d' : DataFrame) (s : string) :
  regions s <> [] -> apply_region_filter d s = Return d' ->
  rows d' = List.filter (fun r => matches (regions s) (location r)) (rows d).
Proof.
  intros Hne. unfold apply_region_filter.
  destruct (String.eqb_spec (Py.strip s) "") as [Hblank|_].
  { now apply regions_blank in Hblank. }
  destruct (regions s) as [|tok toks] eqn:Hregs; [congruence|].
  unfold getitem_col. destruct (existsb _ _); cbn; [|discriminate].
  intros [= <-]. rewrite map_map.
  apply (rows_getitem_mask d (fun r => matches (tok :: toks) (cell "location" r))).
Qed.

(** X11: tokens are alternatives.  The tokens of two filter strings joined
    by a comma are the tokens of the first followed by those of the second,
    and, when each string has a token, the joined filter keeps exactly the
    rows that one of the two filters keeps. *)
Theorem region_filter_union (d d1 d2 d12 : DataFrame) (s1 s2 : string) :
  regions s1 <> [] -> regions s2 <> [] ->
  apply_region_filter d s1 = Return d1 ->
  apply_region_filter d s2 = Return d2 ->
  apply_region_filter d (s1 ++ String "," s2) = Return d12 ->
  regions (s1 ++ String "," s2) = regions s1 ++ regions s2
  /\ forall r, In r (rows d12) <-> In r (rows d1) \/ In r (rows d2).
Proof.
  intros H1 H2 E1 E2 E12. split; [apply regions_append_comma|].
  intros r.
  rewrite (apply_region_filter_rows d d1 s1 H1 E1).
  rewrite (apply_region_filter_rows d d2 s2 H2 E2).
  assert (H12 : regions (s1 ++ String "," s2) <> []).
  { rewrite regions_append_comma. intros Heq.
    apply app_eq_nil in Heq as [Heq _]. contradiction. }
  rewrite (apply_region_filter_rows d d12 _ H12 E12).
  rewrite regions_append_comma, !filter_In, matches_app, orb_true_iff. tauto.
Qed.

Lemma region_filter_union_witness :
  regions ("india" ++ String "," "remote") = regions "india" ++ regions "remote".
Proof.
  exact (proj1 (region_filter_union example_locations
                  (mkDF record_columns
                     (List.filter (fun r => matches ["india"] (location r))
                        (rows example_locations)))
                  (mkDF record_columns
                     (List.filter (fun r => matches ["remote"] (location r))
                        (rows example_locations)))
                  (mkDF record_columns
                     (List.filter (fun r => matches ["india"; "remote"] (location r))
                        (rows example_locations)))
                  "india" "remote"
                  ltac:(discriminate) ltac:(discriminate)
                  eq_refl eq_refl eq_refl)).
Defined.

Lemma filter_idem {A : Type} (f : A -> bool) (l : list A) :
  List.filter f (List.filter f l) = List.filter f l.
Proof.
  induction l as [|x l IH]; [reflexivity|].
  cbn. destruct (f x) eqn:Hx; cbn; [rewrite Hx, IH|]; auto.
Qed.

Lemma apply_region_filter_location (d d' : DataFrame) (s : string) :
  regions s <> [] -> apply_region_filter d s = Return d' ->
  In "location" (columns d).
Proof.
  intros Hne. unfold apply_region_filter.
  destruct (String.eqb_spec (Py.strip s) "") as [Hblank|_].
  { now apply regions_blank in Hblank. }
  destruct (regions s) as [|tok toks]; [congruence|].
  unfold getitem_col.
  destruct (existsb (String.eqb "location") (columns d)) eqn:Hcol;
    [|discriminate].
  intros _. apply existsb_exists in Hcol as (x & Hx & Heq).
  apply String.eqb_eq in Heq. now subst x.
Qed.

(** X12: filtering again changes nothing: when the filter returns a frame
    that has a row, applying the same filter to that frame returns it
    unchanged. *)
Theorem region_filter_idempotent (d d1 : DataFrame) (s : string) :
  apply_region_filter d s = Return d1 -> rows d1 <> [] ->
  apply_region_filter d1 s = Return d1.
Proof.
  intros E Hrows.
  destruct (regions s) as [|tok toks] eqn:Hregs.
  { unfold apply_region_filter in *. rewrite Hregs in *.
    destruct (String.eqb (Py.strip s) ""); now injection E as <-. }
  assert (Hne : regions s <> []) by (rewrite Hregs; discriminate).
  pose proof (apply_region_filter_rows d d1 s Hne E) as Hr1.
  assert (Hd : rows d <> []).
  { intros Hnil. rewrite Hnil in Hr1. cbn in Hr1. congruence. }
  pose proof (apply_region_filter_columns d d1 s Hd E) as Hc1.
  pose proof (apply_region_filter_location d d1 s Hne E) as Hloc.
  rewrite <- Hc1 in Hloc.
  destruct (apply_region_filter_returns d1 s Hloc) as [d2 E2].
  rewrite E2. f_equal.
  pose proof (apply_region_filter_rows d1 d2 s Hne E2) as Hr2.
  pose proof (apply_region_filter_columns d1 d2 s Hrows E2) as Hc2.
  rewrite Hr1, filter_idem, <- Hr1 in Hr2.
  destruct d1, d2. cbn in *. congruence.
Qed.

Lemma region_filter_idempotent_witness :
  apply_region_filter
    (mkDF record_columns (firstn 2 (rows example_locations))) "india, remote"
  = Return (mkDF record_columns (firstn 2 (rows example_locations))).
Proof.
  exact (region_filter_idempotent example_locations
           (mkDF record_columns (firstn 2 (rows example_locations)))
           "india, remote" eq_refl ltac:(discriminate)).
Defined.

(** ** The run of the script *)

Lemma scrape_tweets_len (imp : import_result) (q : string) (limit : Z)
    (d : DataFrame) (ns : list notice) :
  (0 < limit)%Z -> scrape_tweets imp q limit = Return (d, ns) ->
  (1 <= Z.of_nat (df_len d) <= limit)%Z.
Proof.
  intros Hpos Hs.
  destruct (scrape_tweets_columns imp q limit d ns Hpos Hs) as [_ Hne].
  split.
  { unfold df_len. destruct (rows d); [congruence | cbn; lia]. }
  revert Hs. rewrite scrape_tweets_unfold.
  assert (Hsample : (Z.of_nat (df_len (generate_sample_data limit)) <= limit)%Z).
  { rewrite length_generate_sample_data. lia. }
  destruct imp as [m|e].
  - destruct (collect _ _ _ _) as [[|r rs]|e] eqn:Hc.
    + now intros [= <- _].
    + intros [= <- _]. apply collect_rows in Hc as (new & Hnew & Hlen & _).
      cbn [app] in Hnew. subst new. unfold df_len. cbn [rows]. lia.
    + destruct (exc_is_Exception e); [now intros [= <- _] | discriminate].
  - destruct (exc_is_Exception e); [now intros [= <- _] | discriminate].
Qed.

Lemma apply_region_filter_len (d d' : DataFrame) (s : string) :
  apply_region_filter d s = Return d' -> (df_len d' <= df_len d)%nat.
Proof.
  intros E. destruct (regions s) as [|tok toks] eqn:Hregs.
  - unfold apply_region_filter in E. rewrite Hregs in E.
    destruct (String.eqb (Py.strip s) ""); injection E as <-; lia.
  - unfold df_len.
    rewrite (apply_region_filter_rows d d' s ltac:(rewrite Hregs; discriminate) E).
    apply filter_length_le.
Qed.

Lemma run_unfold (imp : import_result) (inp : inputs) (p : page) :
  run imp inp = Return p ->
  exists d ns d',
    (if live inp then scrape_tweets imp (query (keywords inp)) (max_tweets inp)
     else Return (generate_sample_data (max_tweets inp), [])) = Return (d, ns)
    /\ apply_region_filter d (region inp) = Return d'
    /\ p = {| page_query := query (keywords inp); page_notices := ns;
              df := d; df_filtered := d';
              shown := (df_len d', df_len d); csv := to_csv d' |}.
Proof.
  unfold run.
  destruct (if live inp then _ else _) as [[d ns]|e]; cbn; [|discriminate].
  destruct (apply_region_filter d (region inp)) as [d'|e] eqn:Hf; cbn;
    [|discriminate].
  intros [= <-]. exists d, ns, d'. auto.
Qed.

(** X13: the summary line "Showing X of Y".  For a slider value (10 to 500),
    Y is the number of rows fetched, at least 1 and at most the slider
    value, and X is the number of rows of the filtered frame, never more
    than Y; with a filter string that has no token the filtered frame is the
    fetched one and X equals Y. *)
Theorem run_summary (imp : import_result) (inp : inputs) (p : page) :
  (10 <= max_tweets inp <= 500)%Z -> run imp inp = Return p ->
  shown p = (List.length (rows (df_filtered p)), List.length (rows (df p)))
  /\ (fst (shown p) <= snd (shown p))%nat
  /\ (1 <= Z.of_nat (snd (shown p)) <= max_tweets inp)%Z
  /\ (regions (region inp) = [] ->
      df_filtered p = df p /\ fst (shown p) = snd (shown p)).
Proof.
  intros Hmax Hrun.
  assert (Hpos : (0 < max_tweets inp)%Z) by lia.
  destruct (run_unfold imp inp p Hrun) as (d & ns & d' & Hfetch & Hf & ->).
  cbn [shown df df_filtered fst snd]. split; [reflexivity|].
  split; [exact (apply_region_filter_len d d' _ Hf)|]. split.
  - destruct (live inp).
    + exact (scrape_tweets_len _ _ _ _ _ Hpos Hfetch).
    + injection Hfetch as <- _. rewrite length_generate_sample_data. lia.
  - intros Hnil. unfold apply_region_filter in Hf. rewrite Hnil in Hf.
    destruct (String.eqb (Py.strip (region inp)) ""); injection Hf as <-; auto.
Qed.

Lemma run_summary_witness :
  (fst (40%nat, 40%nat) <= snd (40%nat, 40%nat))%nat.
Proof.
  exact (proj1 (proj2 (run_summary (ImportRaises ModuleNotFoundError)
                         (sample_run_inputs "designer") _
                         ltac:(cbn; lia) eq_refl))).
Defined.

(** X14: a missing search module costs nothing but a notice.  When the
    import raises an [Exception], a run with live mode on computes the same
    fetched frame, filtered frame, summary and CSV as the run with live mode
    off; it shows the "not installed" notice, the other shows none. *)
Theorem run_without_snscrape (e : exc) (imp : import_result)
    (k r : string) (n : Z) (p_off : page) :
  exc_is_Exception e = true ->
  run imp (mkInputs k n r false) = Return p_off ->
  exists p_on,
    run (ImportRaises e) (mkInputs k n r true) = Return p_on
    /\ df p_on = df p_off /\ df_filtered p_on = df_filtered p_off
    /\ shown p_on = shown p_off /\ csv p_on = csv p_off
    /\ page_query p_on = page_query p_off
    /\ page_notices p_on = [Info msg_not_installed]
    /\ page_notices p_off = [].
Proof.
  intros He Hoff.
  destruct (run_unfold _ _ _ Hoff) as (d & ns & d' & Hfetch & Hf & ->).
  cbn [live max_tweets region keywords] in *. injection Hfetch as <- <-.
  eexists. split.
  - unfold run. cbn [live max_tweets region keywords].
    rewrite scrape_tweets_unfold, He. cbn [mbind outcome_bind].
    rewrite Hf. cbn [mbind outcome_bind]. reflexivity.
  - cbn. repeat split.
Qed.

Lemma run_without_snscrape_witness :
  exists p_on,
    run (ImportRaises ModuleNotFoundError) (mkInputs "designer" 40 "" true)
    = Return p_on
    /\ page_notices p_on = [Info msg_not_installed].
Proof.
  destruct (run_without_snscrape ModuleNotFoundError
              (ImportRaises ModuleNotFoundError) "designer" "" 40 _
              eq_refl eq_refl)
    as (p_on & Hrun & _ & _ & _ & _ & _ & Hn & _).
  exists p_on. split; [exact Hrun | exact Hn].
Defined.

(** ** More on the CSV export *)

Section Lines.

Lemma count_char_app (x : ascii) (a b : string) :
  count_char x (a ++ b) = (count_char x a + count_char x b)%nat.
Proof.
  induction a as [|c a IH]; [reflexivity|].
  rewrite append_String. cbn [count_char]. rewrite IH. lia.
Qed.

Lemma count_char_absent (x : ascii) (s : string) :
  has_char x s = false -> count_char x s = 0%nat.
Proof.
  induction s as [|c s IH]; [reflexivity|].
  cbn [has_char count_char]. intros H. apply orb_false_iff in H as [-> H].
  now rewrite IH.
Qed.

Lemma has_char_double_quotes (s : string) :
  has_char LF (double_quotes s) = has_char LF s.
Proof.
  induction s as [|c s IH]; [reflexivity|].
  cbn [double_quotes has_char].
  destruct (Ascii.eqb_spec c dquote) as [->|_]; cbn [has_char]; now rewrite IH.
Qed.

Lemma has_char_csv_cell (v : pyval) :
  has_char LF (csv_cell v) = has_char LF (cell_text v).
Proof.
  destruct v as [|s]; [reflexivity|]. cbn [csv_cell cell_text].
  unfold csv_field. destruct (has_special s); [|reflexivity].
  cbn [has_char]. rewrite has_char_app, has_char_double_quotes. cbn.
  now rewrite orb_false_r.
Qed.

Lemma csv_record_one_line (r : Row) :
  one_line r = true -> count_char LF (csv_record r) = 1%nat.
Proof.
  unfold one_line. rewrite !andb_true_iff, !negb_true_iff.
  intros ((((H1 & H2) & H3) & H4) & H5).
  rewrite <- has_char_csv_cell in H1, H2, H3, H4, H5.
  unfold csv_record, csv_line. rewrite count_char_app.
  rewrite (count_char_absent LF); [reflexivity|].
  cbn [String.concat]. rewrite !has_char_app. cbn [has_char].
  now rewrite H1, H2, H3, H4, H5.
Qed.

Lemma count_char_records (rs : list Row) :
  forallb one_line rs = true ->
  count_char LF (String.concat "" (map csv_record rs)) = List.length rs.
Proof.
  induction rs as [|r rs IH]; [reflexivity|].
  cbn [forallb]. intros H. apply andb_true_iff in H as [Hr Hrs].
  assert (Hcat : String.concat "" (map csv_record (r :: rs))
                 = (csv_record r ++ String.concat "" (map csv_record rs))%string).
  { cbn [map String.concat]. destruct (map csv_record rs) eqn:Hm; [|reflexivity].
    cbn. clear. induction (csv_record r) as [|c s IH]; [reflexivity|].
    now rewrite append_String, <- IH. }
  rewrite Hcat, count_char_app, (csv_record_one_line r Hr), (IH Hrs).
  reflexivity.
Qed.

Lemma has_char_uint (d : Decimal.uint) :
  has_char LF (NilEmpty.string_of_uint d) = false.
Proof. induction d; cbn; auto. Qed.

Lemma has_char_str_of_int (z : Z) : has_char LF (Py.str_of_int z) = false.
Proof.
  unfold Py.str_of_int. destruct (Z.to_int z) as [d|d].
  - destruct d; first [reflexivity | exact (has_char_uint _)].
  - change (has_char LF (String "-" (NilZero.string_of_uint d)) = false).
    cbn [has_char]. replace (Ascii.eqb "-" LF) with false by reflexivity.
    cbn [orb]. destruct d; first [reflexivity | exact (has_char_uint _)].
Qed.

Lemma names_one_line :
  forallb (fun tpl : template =>
             let '(name, hdl, txt, loc) := tpl in
             negb (has_char LF name) && negb (has_char LF hdl)
             && negb (has_char LF txt) && negb (has_char LF loc)) names
  = true.
Proof. vm_compute. reflexivity. Qed.

Lemma sample_row_one_line (i : Z) : one_line (sample_row i) = true.
Proof.
  pose proof names_one_line as H. rewrite forallb_forall in H.
  specialize (H _ (names_at_In i)).
  unfold sample_row, one_line. destruct (names_at i) as [[[name hdl] txt] loc].
  rewrite !andb_true_iff, !negb_true_iff in H.
  destruct H as (((Hn & Hh) & Ht) & Hl).
  cbn [display_name handle text url location cell_text].
  rewrite !has_char_app, !has_char_str_of_int.
  cbn [has_char]. rewrite Hn, Hh, Ht, Hl. reflexivity.
Qed.

End Lines.

(** X15: one line terminator per record.  When the frame has the five
    columns and no field holds a line feed, its CSV holds exactly as many
    line feeds as the frame has rows, plus one for the header; every sample
    frame of at least one row is such a frame, so its CSV has one line more
    than it has rows. *)
Theorem to_csv_line_count (d : DataFrame) :
  columns d = record_columns -> forallb one_line (rows d) = true ->
  count_char LF (to_csv d) = S (List.length (rows d))
  /\ (forall n, (1 <= n)%Z ->
        count_char LF (to_csv (generate_sample_data n)) = S (Z.to_nat n)).
Proof.
  assert (Hgen : forall d, columns d = record_columns ->
            forallb one_line (rows d) = true ->
            count_char LF (to_csv d) = S (List.length (rows d))).
  { intros d0 Hc Hrows. rewrite (to_csv_record_columns d0 Hc).
    rewrite count_char_app. cbn [count_char].
    rewrite (count_char_records _ Hrows). reflexivity. }
  intros Hc Hrows. split; [now apply Hgen|].
  intros n Hn. rewrite Hgen.
  - fold (df_len (generate_sample_data n)).
    now rewrite length_generate_sample_data.
  - apply columns_generate_sample_data. lia.
  - rewrite rows_generate_sample_data, forallb_forall.
    intros r Hr. apply in_map_iff in Hr as (k & <- & _).
    apply sample_row_one_line.
Qed.

Lemma to_csv_line_count_witness :
  count_char LF (to_csv (generate_sample_data 3)) = 4%nat.
Proof.
  exact (proj1 (to_csv_line_count (generate_sample_data 3) eq_refl eq_refl)).
Defined.

(** ** More on the aggregator *)

Section Sums.

Lemma list_sum_cons (x : nat) (l : list nat) :
  list_sum (x :: l) = (x + list_sum l)%nat.
Proof. reflexivity. Qed.

Lemma sum_bump (k : string) (g : counts) :
  list_sum (map snd (bump k g)) = S (list_sum (map snd g)).
Proof.
  induction g as [|[k' c] g IH]; [reflexivity|].
  cbn [bump]. destruct (String_as_OT.compare k k');
    cbn [map snd]; rewrite !list_sum_cons; [lia | cbn [map snd]; lia |].
  rewrite IH. lia.
Qed.

Lemma sum_fold_bump (keys : list string) (g : counts) :
  list_sum (map snd (fold_left (fun g k => bump k g) keys g))
  = (list_sum (map snd g) + List.length keys)%nat.
Proof.
  revert g. induction keys as [|k keys IH]; intros g;
    cbn [fold_left List.length]; [lia|].
  rewrite IH, sum_bump. lia.
Qed.

Lemma sum_perm (g g' : counts) :
  Permutation g g' -> list_sum (map snd g) = list_sum (map snd g').
Proof.
  induction 1 as [|x l l' _ IH|x y l|l l' l'' _ IH1 _ IH2];
    cbn [map]; rewrite ?list_sum_cons; lia.
Qed.

Lemma sum_firstn (n : nat) (g : counts) :
  (list_sum (map snd (firstn n g)) <= list_sum (map snd g))%nat.
Proof.
  revert n. induction g as [|x g IH]; intros [|n];
    cbn [firstn map]; rewrite ?list_sum_cons; cbn [list_sum fold_right];
    try lia.
  specialize (IH n). lia.
Qed.

Lemma length_le_sum (g : counts) :
  Forall (fun x => 0 < snd x)%nat g ->
  (List.length g <= list_sum (map snd g))%nat.
Proof.
  induction 1 as [|x g Hx _ IH]; cbn [map List.length];
    rewrite ?list_sum_cons; [cbn; lia | lia].
Qed.

Lemma Forall_firstn {A : Type} (P : A -> Prop) (n : nat) (l : list A) :
  Forall P l -> Forall P (firstn n l).
Proof.
  intros H. revert n. induction H; intros [|n]; cbn; constructor; auto.
Qed.

End Sums.

(** The value of the aggregation, spelled out. *)
Lemma loc_counts_value (kind : counts -> counts) (d : DataFrame) :
  In "location" (columns d) ->
  loc_counts kind d
  = Return (firstn 15 (sort_values_desc kind
              (fold_left (fun g k => bump k g) (map label (rows d)) []))).
Proof.
  intros Hcol. unfold loc_counts. rewrite (getitem_col_location d Hcol).
  cbn [mbind outcome_bind]. cbv zeta.
  unfold head, groupby_size. now rewrite assigned_keys.
Qed.

(** X16: the counts add up.  Whatever sort is used, the aggregation returns
    at most 15 entries, each with a count of at least 1, and their counts
    sum to at most the number of rows of the frame; when fewer than 15
    entries come back nothing was cut off and the counts sum to exactly the
    number of rows. *)
Theorem loc_counts_total (kind : counts -> counts) (d : DataFrame)
    (out : counts) :
  sorts kind -> In "location" (columns d) ->
  loc_counts kind d = Return out ->
  (List.length out <= 15)%nat
  /\ Forall (fun x => 1 <= snd x)%nat out
  /\ (List.length out <= list_sum (map snd out))%nat
  /\ (list_sum (map snd out) <= List.length (rows d))%nat
  /\ ((List.length out < 15)%nat ->
      list_sum (map snd out) = List.length (rows d)).
Proof.
  intros Hk Hcol. rewrite (loc_counts_value kind d Hcol). intros [= <-].
  set (g := fold_left (fun g k => bump k g) (map label (rows d)) []).
  destruct (fold_bump (map label (rows d)) [] ltac:(constructor) ltac:(constructor))
    as (_ & Hp & _). fold g in Hp.
  assert (Hsum : list_sum (map snd (sort_values_desc kind g))
                 = List.length (rows d)).
  { rewrite (sum_perm _ _ (sort_values_desc_perm kind g Hk)).
    unfold g. rewrite sum_fold_bump, length_map. reflexivity. }
  assert (Hpos : Forall (fun x => 0 < snd x)%nat (sort_values_desc kind g)).
  { apply List.Forall_forall. intros x Hx.
    apply (Permutation_in _ (sort_values_desc_perm kind g Hk)) in Hx.
    exact (proj1 (List.Forall_forall _ _) Hp x Hx). }
  pose proof (Forall_firstn _ 15 _ Hpos) as Hpos15.
  split; [apply firstn_le_length|]. split; [exact Hpos15|].
  split; [now apply length_le_sum|]. split.
  - rewrite <- Hsum. apply sum_firstn.
  - intros Hlt. rewrite <- Hsum. f_equal. f_equal.
    apply firstn_all2. rewrite length_firstn in Hlt. lia.
Qed.

Lemma loc_counts_total_witness :
  (list_sum (map snd [("Mumbai", 2%nat); ("Pune", 1%nat); ("Unknown", 1%nat)])
   <= List.length (rows example_counts_input))%nat.
Proof.
  exact (proj1 (proj2 (proj2 (proj2
           (loc_counts_total stable_argsort example_counts_input _
              stable_argsort_sorts ltac:(cbn; tauto) eq_refl))))).
Defined.

Lemma In_firstn {A : Type} (n : nat) (l : list A) (x : A) :
  In x (firstn n l) -> In x l.
Proof.
  revert n. induction l as [|y l IH]; intros [|n]; cbn; try tauto.
  intros [->|H]; [now left | right; eauto].
Qed.

Lemma label_nonempty (r : Row) : label r <> "".
Proof.
  unfold label. destruct (location r) as [|s]; [discriminate|].
  destruct (String.eqb_spec s ""); [discriminate | assumption].
Qed.

Lemma label_unknown (r : Row) :
  String.eqb (label r) "Unknown" = unknown_location r.
Proof.
  unfold label, unknown_location. destruct (location r) as [|s]; [reflexivity|].
  destruct (String.eqb_spec s "") as [->|Hne]; [reflexivity|].
  reflexivity.
Qed.

Lemma count_occ_filter (l : string) (rs : list Row) :
  count_occ string_dec (map label rs) l
  = List.length (List.filter (fun r => String.eqb (label r) l) rs).
Proof.
  induction rs as [|r rs IH]; [reflexivity|].
  cbn [map count_occ List.filter].
  destruct (string_dec (label r) l) as [->|Hne].
  - rewrite String.eqb_refl. cbn. now rewrite IH.
  - rewrite (proj2 (String.eqb_neq _ _) Hne). exact IH.
Qed.

(** X17: what a key of the result stands for.  Whatever sort is used, no
    entry of the result has the empty string as its location, the count of
    an entry is the number of rows with that label, and the entry "Unknown"
    counts together the rows whose location is missing, empty, or the word
    "Unknown" itself. *)
Theorem loc_counts_keys (kind : counts -> counts) (d : DataFrame)
    (out : counts) (l : string) (c : nat) :
  sorts kind -> In "location" (columns d) ->
  loc_counts kind d = Return out -> In (l, c) out ->
  l <> ""
  /\ c = List.length (List.filter (fun r => String.eqb (label r) l) (rows d))
  /\ (l = "Unknown" ->
      c = List.length (List.filter unknown_location (rows d))).
Proof.
  intros Hk Hcol Hout Hin.
  destruct (loc_counts_groups kind d Hcol) as (g & Hg & _ & Hiff).
  rewrite Hg in Hout. injection Hout as <-.
  apply In_firstn in Hin.
  apply (Permutation_in _ (sort_values_desc_perm kind g Hk)) in Hin.
  apply Hiff in Hin as [Hc Hpos]. rewrite count_occ_filter in Hc.
  split; [|split; [exact Hc|]].
  - intros ->. subst c.
    destruct (List.filter _ (rows d)) as [|r rs] eqn:Hf; [cbn in Hpos; lia|].
    assert (Hr : In r (List.filter (fun r => String.eqb (label r) "") (rows d)))
      by (rewrite Hf; now left).
    apply filter_In in Hr as [_ Hr]. apply String.eqb_eq in Hr.
    now apply label_nonempty in Hr.
  - intros ->. rewrite Hc. f_equal. apply List.filter_ext. intros r.
    apply label_unknown.
Qed.

Lemma loc_counts_keys_witness :
  1%nat = List.length (List.filter unknown_location (rows example_counts_input)).
Proof.
  exact (proj2 (proj2 (loc_counts_keys stable_argsort example_counts_input
                         [("Mumbai", 2%nat); ("Pune", 1%nat); ("Unknown", 1%nat)]
                         "Unknown" 1%nat stable_argsort_sorts
                         ltac:(cbn; tauto) eq_refl
                         (or_intror (or_intror (or_introl eq_refl)))))
           eq_refl).
Defined.

(** ** More on the query, the catalog cycle and the missing column *)

Lemma append_length (a b : string) :
  String.length (a ++ b) = (String.length a + String.length b)%nat.
Proof.
  induction a as [|c a IH]; [reflexivity|].
  rewrite append_String. cbn [String.length]. now rewrite IH.
Qed.

Lemma append_inv_tail (a b c : string) : (a ++ c = b ++ c)%string -> a = b.
Proof.
  revert b. induction a as [|x a IH]; intros [|y b] H.
  - reflexivity.
  - apply (f_equal String.length) in H. rewrite append_length in H.
    cbn [String.length] in H. rewrite ?append_length in H. cbn in H. lia.
  - apply (f_equal String.length) in H. rewrite append_length in H.
    cbn [String.length] in H. rewrite ?append_length in H. cbn in H. lia.
  - rewrite !append_String in H. injection H as -> H. f_equal. now apply IH.
Qed.

(** X18: the query determines the keywords: different keyword expressions
    give different queries, and every query is longer than its keywords by
    the 41 characters of the three clauses. *)
Theorem query_injective :
  (forall k1 k2, query k1 = query k2 -> k1 = k2)
  /\ (forall k, String.length (query k) = (String.length k + 41)%nat).
Proof.
  split.
  - intros k1 k2. unfold query. apply append_inv_tail.
  - intros k. unfold query. now rewrite append_length.
Qed.

Lemma names_at_cycle (i : Z) : names_at (i + 8) = names_at i.
Proof.
  unfold names_at. change (Z.of_nat (List.length names)) with 8%Z.
  replace (i + 8)%Z with (i + 1 * 8)%Z by lia. now rewrite Z.mod_add.
Qed.

(** X19: the sample data cycles through the catalog.  Rows 8 apart have the
    same display name, handle and location, and differ in their text and in
    their url. *)
Theorem generate_sample_data_cycle (n i : Z) :
  (0 <= i)%Z -> (i + 8 < n)%Z ->
  exists r r',
    nth_error (rows (generate_sample_data n)) (Z.to_nat i) = Some r
    /\ nth_error (rows (generate_sample_data n)) (Z.to_nat (i + 8)) = Some r'
    /\ display_name r' = display_name r /\ handle r' = handle r
    /\ location r' = location r
    /\ text r' <> text r /\ url r' <> url r.
Proof.
  intros Hi Hn. exists (sample_row i), (sample_row (i + 8)).
  split; [apply nth_generate_sample_data; lia|].
  split; [apply nth_generate_sample_data; lia|].
  assert (Hurl : url (sample_row (i + 8)) <> url (sample_row i)).
  { intros H. apply sample_url_inj in H. lia. }
  revert Hurl. unfold sample_row. rewrite names_at_cycle.
  destruct (names_at i) as [[[name hdl] txt] loc].
  cbn [display_name handle location text url]. intros Hurl.
  repeat split; [|exact Hurl].
  intros [= H]. apply append_inv_head, append_inv_head, str_of_int_inj in H. lia.
Qed.

Lemma generate_sample_data_cycle_witness :
  exists r r',
    nth_error (rows (generate_sample_data 40)) 0 = Some r
    /\ nth_error (rows (generate_sample_data 40)) 8 = Some r'
    /\ display_name r' = display_name r /\ url r' <> url r.
Proof.
  destruct (generate_sample_data_cycle 40 0 ltac:(lia) ltac:(lia))
    as (r & r' & H0 & H8 & Hname & _ & _ & _ & Hurl).
  exists r, r'. auto.
Defined.

(** X20: the filter on a frame without a location column.  On such a frame
    (the frame of [generate_sample_data] for a count below 1 is one) a
    filter string with a token raises [KeyError], while a filter string
    without tokens returns the frame as it is. *)
Theorem region_filter_missing_column (d : DataFrame) (s : string) :
  ~ In "location" (columns d) ->
  (regions s <> [] -> apply_region_filter d s = Raised KeyError)
  /\ (regions s = [] -> apply_region_filter d s = Return d)
  /\ (forall n, (n <= 0)%Z -> regions s <> [] ->
        apply_region_filter (generate_sample_data n) s = Raised KeyError).
Proof.
  assert (Hgen : forall d, ~ In "location" (columns d) -> regions s <> [] ->
            apply_region_filter d s = Raised KeyError).
  { intros d0 Hcol Hne. unfold apply_region_filter.
    destruct (String.eqb_spec (Py.strip s) "") as [Hblank|_].
    { now apply regions_blank in Hblank. }
    destruct (regions s) as [|tok toks]; [congruence|].
    unfold getitem_col.
    destruct (existsb (String.eqb "location") (columns d0)) eqn:Hex;
      [|reflexivity].
    exfalso. apply Hcol. apply existsb_exists in Hex as (x & Hx & Heq).
    apply String.eqb_eq in Heq. now subst x. }
  intros Hcol. split; [now apply Hgen|]. split.
  - intros Hnil. unfold apply_region_filter. rewrite Hnil.
    now destruct (String.eqb (Py.strip s) "").
  - intros n Hn Hne. apply Hgen; [|exact Hne].
    unfold generate_sample_data. replace (Z.to_nat n) with 0%nat by lia.
    cbn. tauto.
Qed.

Lemma region_filter_missing_column_witness :
  apply_region_filter (generate_sample_data 0) "india" = Raised KeyError.
Proof.
  exact (proj1 (region_filter_missing_column (generate_sample_data 0) "india"
                  ltac:(cbn; tauto)) ltac:(discriminate)).
Defined.
